(** * jsend-middleware: a shallow embedding of [src/index.js]

    The module under study exports one function, [jsendMiddleware], which
    installs on an Express response object three operations ([success],
    [fail], [error]) backed by the class [Jsend].  The embedding below
    follows the JavaScript text: values are dynamically typed, objects live
    in a store and are referred to by location, a call either completes
    normally or throws, and the two capabilities of the response object
    ([res.status], [res.json]) are recorded in a trace of calls. *)

From Stdlib Require Import Floats.SpecFloat.
From stdpp Require Import gmap strings list fin_maps.

Open Scope string_scope.
Open Scope list_scope.
Set Warnings "-register-all".

(** ** JavaScript values *)

(** A JavaScript string is a sequence of UTF-16 code units. *)
Abbreviation jsstring := (list N).

(** Code units of an ASCII literal. *)
Definition js (s : string) : jsstring :=
  List.map Ascii.N_of_ascii (String.list_ascii_of_string s).

(** Objects are referred to by their location in the store. *)
Abbreviation loc := positive (only parsing).

(** What [typeof] and [Array.isArray] can tell about an object; it is fixed
    when the object is created, so the reference carries it. *)
Inductive obj_kind := KPlain | KArray | KFunction.

(** Numbers are IEEE-754 doubles ([spec_float]), so that [NaN] and both
    zeros are there; a symbol is known by its identity. *)
Inductive value :=
| VUndefined
| VNull
| VBool (b : bool)
| VNum (x : spec_float)
| VBigInt (z : Z)
| VStr (s : jsstring)
| VSymbol (id : positive)
| VObj (k : obj_kind) (l : loc).

(** An integer literal of the source. *)
Definition num (z : Z) : value :=
  VNum match z with
       | Z0 => S754_zero false
       | Zpos p => S754_finite false p 0
       | Zneg p => S754_finite true p 0
       end.

Definition str (s : string) : value := VStr (js s).

(** The results of [typeof]. *)
Inductive js_type :=
| TUndefined | TObject | TBoolean | TNumber | TBigInt | TString | TSymbol | TFunction.

#[global] Instance js_type_eq_dec : EqDecision js_type.
Proof. solve_decision. Defined.

(** [typeof v]; note [typeof null === "object"]. *)
Definition typeof (v : value) : js_type :=
  match v with
  | VUndefined => TUndefined
  | VNull => TObject
  | VBool _ => TBoolean
  | VNum _ => TNumber
  | VBigInt _ => TBigInt
  | VStr _ => TString
  | VSymbol _ => TSymbol
  | VObj KFunction _ => TFunction
  | VObj _ _ => TObject
  end.

(** [ToBoolean v]: [undefined], [null], [false], [+0], [-0], [NaN], [0n]
    and the empty string are falsy, everything else (every object) is
    truthy. *)
Definition truthy (v : value) : bool :=
  match v with
  | VUndefined | VNull => false
  | VBool b => b
  | VNum (S754_zero _) | VNum S754_nan => false
  | VNum _ => true
  | VBigInt 0 => false
  | VBigInt _ => true
  | VStr [] => false
  | VStr _ => true
  | VSymbol _ => true
  | VObj _ _ => true
  end.

(** A parameter default [x = d] replaces [undefined] only. *)
Definition default_param (v d : value) : value :=
  match v with
  | VUndefined => d
  | _ => v
  end.

(** The [i]-th actual argument of a call; a missing one is [undefined]. *)
Definition arg (i : nat) (args : list value) : value :=
  List.nth i args VUndefined.

(** ** [String.prototype.trim] *)

(** WhiteSpace and LineTerminator code units of ECMAScript. *)
Definition is_white_space (c : N) : bool :=
  match c with
  | 9 | 10 | 11 | 12 | 13 | 32 | 160 | 5760
  | 8232 | 8233 | 8239 | 8287 | 12288 | 65279 => true
  | _ => (8192 <=? c)%N && (c <=? 8202)%N
  end%N.

Fixpoint trim_start (s : jsstring) : jsstring :=
  match s with
  | c :: s' => if is_white_space c then trim_start s' else s
  | [] => []
  end.

Definition trim (s : jsstring) : jsstring :=
  rev (trim_start (rev (trim_start s))).

(** A string is blank when every code unit is white space. *)
Definition blank (s : jsstring) : bool := forallb is_white_space s.

(** ** Store, trace and completions *)

(** The own enumerable data properties of an object, in enumeration order. *)
Abbreviation props := (list (jsstring * value)).

(** The three arrow functions that the middleware creates; each closes over
    [res] and one configured label. *)
Inductive closure :=
| CSuccess (res label : value)
| CFail (res label : value)
| CError (res label : value).

(** Calls made on the host framework. *)
Inductive event :=
| EStatus (code : value)          (* res.status(code) *)
| EJson (body : value)            (* .json(body) *)
| ENext.                          (* next() *)

Record world := World {
  heap : gmap loc props;          (* properties of every live object *)
  funs : gmap loc closure;        (* bodies of the installed arrow functions *)
  trace : list event              (* calls on the host, oldest first *)
}.

(** The errors the module throws ([new Error(msg)]), and the engine's
    [TypeError]. *)
Inductive exn :=
| Error (msg : string)
| TypeError.

Definition InvalidResponseTarget := Error "Invalid Express response object provided.".
Definition InvalidDataKind := Error "Data must be an object or null.".
Definition InvalidMessage := Error "Error response must include a non-empty message string.".
Definition InvalidExtraKind := Error "Extra must be an object.".

Inductive completion (A : Type) :=
| Normal (a : A)
| Throw (e : exn).
Arguments Normal {A} a.
Arguments Throw {A} e.

(** Computations: a completion and the world after it. *)
Definition M (A : Type) := world → completion A * world.

Definition ret {A} (a : A) : M A := fun w => (Normal a, w).
Definition throw {A} (e : exn) : M A := fun w => (Throw e, w).
Definition bind {A B} (m : M A) (k : A → M B) : M B :=
  fun w => match m w with
           | (Normal a, w') => k a w'
           | (Throw e, w') => (Throw e, w')
           end.

Notation "'let!' x ':=' m 'in' k" := (bind m (fun x => k))
  (at level 10, x name, m at level 100, k at level 200).

(** ** Property access and allocation *)

Fixpoint assoc (k : jsstring) (ps : props) : option value :=
  match ps with
  | [] => None
  | (k', v) :: ps' => if decide (k = k') then Some v else assoc k ps'
  end.

(** Assignment to a property: an existing key keeps its place, a new key
    goes last. *)
Fixpoint assoc_set (k : jsstring) (v : value) (ps : props) : props :=
  match ps with
  | [] => [(k, v)]
  | (k', v') :: ps' =>
      if decide (k = k') then (k, v) :: ps' else (k', v') :: assoc_set k v ps'
  end.

(** The properties of the object a value refers to.  A primitive is given
    none: the only properties primitives have are the indices and [length]
    of a string, which the module never reads, and no non-empty string is
    ever spread. *)
Definition own_props (h : gmap loc props) (v : value) : props :=
  match v with
  | VObj _ l => default [] (h !! l)
  | _ => []
  end.

(** [v.k] once [v] is known not to be [null] or [undefined]: the property
    if the object has it, [undefined] otherwise.  None of the names the
    module reads ([status], [json], [code], [details], [extra], the three
    labels) is inherited from a built-in prototype, so own properties
    decide. *)
Definition field (h : gmap loc props) (v : value) (k : string) : value :=
  default VUndefined (assoc (js k) (own_props h v)).

(** [v.k]: reading a property of [null] or [undefined] throws. *)
Definition get_prop (v : value) (k : string) : M value :=
  fun w => match v with
           | VUndefined | VNull => (Throw TypeError, w)
           | _ => (Normal (field (heap w) v k), w)
           end.

(** [v.k = x] in strict mode (the file is an ES module): only an object can
    take the property. *)
Definition set_prop (v : value) (k : string) (x : value) : M unit :=
  fun w => match v with
           | VObj _ l =>
               (Normal (),
                World (<[l := assoc_set (js k) x (own_props (heap w) v)]> (heap w))
                      (funs w) (trace w))
           | _ => (Throw TypeError, w)
           end.

(** A location no object occupies. *)
Definition fresh_loc (h : gmap loc props) : loc := fresh (dom h).

(** An object literal or [new]: a new object with the given properties. *)
Definition alloc (k : obj_kind) (ps : props) : M value :=
  fun w => let l := fresh_loc (heap w) in
           (Normal (VObj k l), World (<[l := ps]> (heap w)) (funs w) (trace w)).

(** An arrow function: a new function object whose body is [c]. *)
Definition alloc_closure (c : closure) : M value :=
  fun w => let l := fresh_loc (heap w) in
           (Normal (VObj KFunction l),
            World (<[l := []]> (heap w)) (<[l := c]> (funs w)) (trace w)).

(** Spreading [...v] into an object literal copies the own enumerable
    properties of an object; [undefined], [null], numbers, booleans, symbols
    and the empty string contribute nothing. *)
Definition spread (h : gmap loc props) (v : value) : props := own_props h v.

(** ** The host's side of the contract

    Express's [res.status(code)] records the code and returns [res];
    [res.json(body)] sends the body and returns [res]; [next()] hands
    control on.  The two capabilities are taken as the module takes them,
    as calls that succeed: what Express does inside them (it stores the
    code in the response object, and serialising the body fails on a
    BigInt or a cyclic object) is the host's and is not modelled, so the
    properties below speak of the calls the module makes and of the
    objects it builds, not of what the host does with them. *)

Definition emit (e : event) : M unit :=
  fun w => (Normal (), World (heap w) (funs w) (trace w ++ [e])).

Definition res_status (res code : value) : M value :=
  let! _ := emit (EStatus code) in ret res.

Definition res_json (res body : value) : M value :=
  let! _ := emit (EJson body) in ret res.

Definition call_next (next : value) : M unit :=
  if decide (typeof next = TFunction) then emit ENext else throw TypeError.

(** A parameter default [x = {}]: a new empty object replaces [undefined]. *)
Definition default_object (v : value) : M value :=
  match v with
  | VUndefined => alloc KPlain []
  | _ => ret v
  end.

(** [c && { ... }] spread into an object literal: the properties of the
    literal when [c] is truthy; a falsy [c] is spread itself and has no
    property to give.  The literal is a temporary and is not stored. *)
Definition spread_and (c : value) (literal : props) : props :=
  if truthy c then literal else [].

(** [s.trim()] on a value known to be a string. *)
Definition method_trim (v : value) : value :=
  match v with
  | VStr s => VStr (trim s)
  | _ => VUndefined
  end.

(** ** class Jsend *)

(** An instance holds the response object in [this.res]. *)
Record Jsend := { this_res : value }.

(** [constructor(res)], lines 9-18. *)
Definition Jsend_new (res : value) : M Jsend :=
  if negb (truthy res) then throw InvalidResponseTarget
  else
    let! st := get_prop res "status" in
    if decide (typeof st ≠ TFunction) then throw InvalidResponseTarget
    else
      let! sj := get_prop res "json" in
      if decide (typeof sj ≠ TFunction) then throw InvalidResponseTarget
      else ret {| this_res := res |}.

(** [success(data = null, status = 200, statusLabel = "success")],
    lines 28-36. *)
Definition success (this : Jsend) (data status statusLabel : value) : M value :=
  let data := default_param data VNull in
  let status := default_param status (num 200) in
  let statusLabel := default_param statusLabel (str "success") in
  if truthy data && bool_decide (typeof data ≠ TObject)
  then throw InvalidDataKind
  else
    let! r := res_status (this_res this) status in
    let! body := alloc KPlain [(js "status", statusLabel); (js "data", data)] in
    res_json r body.

(** [fail(data = null, status = 400, statusLabel = "fail")], lines 46-54. *)
Definition fail (this : Jsend) (data status statusLabel : value) : M value :=
  let data := default_param data VNull in
  let status := default_param status (num 400) in
  let statusLabel := default_param statusLabel (str "fail") in
  if truthy data && bool_decide (typeof data ≠ TObject)
  then throw InvalidDataKind
  else
    let! r := res_status (this_res this) status in
    let! body := alloc KPlain [(js "status", statusLabel); (js "data", data)] in
    res_json r body.

(** [error(message = "Internal Server Error", status = 500, options = {},
    statusLabel = "error")], lines 65-89. *)
Definition error (this : Jsend) (message status options statusLabel : value)
  : M value :=
  let message := default_param message (str "Internal Server Error") in
  let status := default_param status (num 500) in
  let! options := default_object options in
  let statusLabel := default_param statusLabel (str "error") in
  if bool_decide (typeof message ≠ TString) || negb (truthy (method_trim message))
  then throw InvalidMessage
  else
    let! extra := get_prop options "extra" in
    if truthy extra && bool_decide (typeof extra ≠ TObject)
    then throw InvalidExtraKind
    else
      let! code := get_prop options "code" in
      let! details := get_prop options "details" in
      let! copy :=
        (if truthy extra
         then fun w => alloc KPlain (spread (heap w) extra) w
         else ret extra) in
      let! response :=
        alloc KPlain
          ([(js "status", statusLabel); (js "message", message)]
           ++ spread_and code [(js "code", code)]
           ++ spread_and details [(js "details", details)]
           ++ spread_and extra [(js "extra", copy)]) in
      let! r := res_status (this_res this) status in
      res_json r response.

(** ** jsendMiddleware *)

(** The three labels the returned middleware closes over. *)
Record Labels := {
  successLabel : value;
  failLabel : value;
  errorLabel : value
}.

(** [jsendMiddleware(config = {})] up to its [return], lines 100-105: the
    destructuring of [config] with a default per label. *)
Definition jsendMiddleware (config : value) : M Labels :=
  let! config := default_object config in
  let! s := get_prop config "successLabel" in
  let! f := get_prop config "failLabel" in
  let! e := get_prop config "errorLabel" in
  ret {| successLabel := default_param s (str "success");
         failLabel := default_param f (str "fail");
         errorLabel := default_param e (str "error") |}.

(** The bodies of the three arrow functions, lines 109-114.  Each declares
    the parameters it forwards and no more: [(data, status)] for success and
    fail, [(message, status, options)] for error; a further actual argument
    is bound to nothing.  Each builds a [Jsend] of its own, which is used
    for the one call and not stored. *)
Definition apply_closure (c : closure) (args : list value) : M value :=
  match c with
  | CSuccess res label =>
      let! j := Jsend_new res in
      success j (arg 0 args) (arg 1 args) label
  | CFail res label =>
      let! j := Jsend_new res in
      fail j (arg 0 args) (arg 1 args) label
  | CError res label =>
      let! j := Jsend_new res in
      error j (arg 0 args) (arg 1 args) (arg 2 args) label
  end.

(** The middleware [(req, res, next) => { ... }], lines 106-116. *)
Definition middleware (cfg : Labels) (req res next : value) : M unit :=
  let! j := Jsend_new res in
  let! inst := alloc KPlain [(js "res", this_res j)] in
  let! _ := set_prop res "jsend" inst in
  let! o := get_prop res "jsend" in
  let! f := alloc_closure (CSuccess res (successLabel cfg)) in
  let! _ := set_prop o "success" f in
  let! o := get_prop res "jsend" in
  let! f := alloc_closure (CFail res (failLabel cfg)) in
  let! _ := set_prop o "fail" f in
  let! o := get_prop res "jsend" in
  let! f := alloc_closure (CError res (errorLabel cfg)) in
  let! _ := set_prop o "error" f in
  call_next next.

(** ** A request handler calling [res.jsend.m(...args)]

    Only the three installed arrow functions have a body here; a call of
    any other function object is outside the embedding ([None]). *)
Definition call_function (f : value) (args : list value) (w : world)
  : option (completion value * world) :=
  match f with
  | VObj KFunction l => (fun c => apply_closure c args w) <$> funs w !! l
  | _ => Some (Throw TypeError, w)
  end.

Definition call_jsend (res : value) (m : string) (args : list value) (w : world)
  : option (completion value * world) :=
  match (let! o := get_prop res "jsend" in get_prop o m) w with
  | (Normal f, w') => call_function f args w'
  | (Throw e, w') => Some (Throw e, w')
  end.

(** ** Reading results *)

(** The object graph below a value, unfolded to a given depth; what is left
    at a leaf is a primitive, a function, or (at depth 0) a reference. *)
Inductive tree :=
| Leaf (v : value)
| Node (k : obj_kind) (fields : list (jsstring * tree)).

Fixpoint unfold_value (n : nat) (h : gmap loc props) (v : value) : tree :=
  match n with
  | O => Leaf v
  | S n' =>
      match v with
      | VObj KFunction _ => Leaf v
      | VObj k l =>
          Node k (List.map (fun kv => (kv.1, unfold_value n' h kv.2)) (own_props h v))
      | _ => Leaf v
      end
  end.

(** A call wrote nothing: no call on the host was made, no function was
    installed and every object that existed is as it was. *)
Definition no_write (w w' : world) : Prop :=
  trace w' = trace w ∧ funs w' = funs w ∧ heap w ⊆ heap w'.

(** A string with a character that [trim] keeps. *)
Definition non_blank_string (v : value) : Prop :=
  ∃ s, v = VStr s ∧ blank s = false.

(** The world after one envelope with properties [ps] has been sent with
    status [code]: the envelope is a new object, and the host saw
    [status(code)] and then [json(envelope)]. *)
Definition emitted (w : world) (code : value) (ps : props) : world :=
  let l := fresh_loc (heap w) in
  World (<[l := ps]> (heap w)) (funs w)
        (trace w ++ [EStatus code; EJson (VObj KPlain l)]).

(** The check of lines 29 and 47. *)
Definition data_rejected (data : value) : bool :=
  truthy data && bool_decide (typeof data ≠ TObject).

(** The check of line 71. *)
Definition message_rejected (message : value) : bool :=
  bool_decide (typeof message ≠ TString) || negb (truthy (method_trim message)).

(** The check of line 76. *)
Definition extra_rejected (extra : value) : bool :=
  truthy extra && bool_decide (typeof extra ≠ TObject).

(** An optional key of the envelope: present with the option's value when
    that value is truthy, not emitted otherwise. *)
Definition optional (k : string) (v : value) : props :=
  if truthy v then [(js k, v)] else [].

(** The world in which the copy of [extra] has been made, and the value
    stored under the envelope's [extra]. *)
Definition with_copy (w : world) (extra : value) : world :=
  if truthy extra
  then World (<[fresh_loc (heap w) := own_props (heap w) extra]> (heap w))
             (funs w) (trace w)
  else w.

Definition copy_of (w : world) (extra : value) : value :=
  if truthy extra then VObj KPlain (fresh_loc (heap w)) else extra.

(** ** A concrete request

    An Express response object at location 1 with its two capabilities, a
    [next] callback at location 4, and the objects the README's calls
    pass. *)
Module Sample.

Definition res : value := VObj KPlain 1%positive.
Definition next : value := VObj KFunction 4%positive.

(* { retryAfter: 60 } *)
Definition details : value := VObj KPlain 5%positive.
(* { traceId: "abc123" } *)
Definition extra : value := VObj KPlain 6%positive.
(* { code: "DB_ERR", details: {...}, extra: {...} } *)
Definition options : value := VObj KPlain 7%positive.
(* { extra: "" } *)
Definition options_empty_extra : value := VObj KPlain 8%positive.
(* { successLabel: "ok" } *)
Definition config : value := VObj KPlain 9%positive.
(* [1, 2] *)
Definition array : value := VObj KArray 10%positive.
(* { extra: "oops" } *)
Definition options_string_extra : value := VObj KPlain 11%positive.

Definition w0 : world :=
  World
    (list_to_map
       [(1%positive, [(js "status", VObj KFunction 2%positive);
                      (js "json", VObj KFunction 3%positive)]);
        (2%positive, []); (3%positive, []); (4%positive, []);
        (5%positive, [(js "retryAfter", num 60)]);
        (6%positive, [(js "traceId", str "abc123")]);
        (7%positive, [(js "code", str "DB_ERR");
                      (js "details", details);
                      (js "extra", extra)]);
        (8%positive, [(js "extra", str "")]);
        (9%positive, [(js "successLabel", str "ok")]);
        (10%positive, [(js "0", num 1); (js "1", num 2)]);
        (11%positive, [(js "extra", str "oops")])])
    ∅ [].

(** The world after [jsendMiddleware(config)] has run for this request. *)
Definition installed (config : value) : world :=
  ((let! cfg := jsendMiddleware config in middleware cfg VNull res next) w0).2.

End Sample.

(** * Properties *)

(** ** Basic facts about the store and about [trim] *)

Lemma fresh_loc_unused (h : gmap loc props) : h !! fresh_loc h = None.
Proof. unfold fresh_loc. apply (not_elem_of_dom (D := gset loc)), is_fresh. Qed.

Lemma fresh_loc_ne (h : gmap loc props) (l : loc) :
  is_Some (h !! l) → fresh_loc h ≠ l.
Proof.
  intros Hl Heq. rewrite <- Heq, fresh_loc_unused in Hl.
  by destruct Hl.
Qed.

Lemma heap_subseteq_alloc (h : gmap loc props) (ps : props) :
  h ⊆ <[fresh_loc h := ps]> h.
Proof. apply insert_subseteq, fresh_loc_unused. Qed.

Lemma no_write_refl (w : world) : no_write w w.
Proof. by repeat split. Qed.

Lemma trim_start_blank (s : jsstring) : trim_start s = [] ↔ blank s = true.
Proof.
  induction s as [|c s IH]; simpl; [done|].
  destruct (is_white_space c); simpl; [apply IH|].
  split; discriminate.
Qed.

Lemma blank_rev (s : jsstring) : blank (rev s) = blank s.
Proof.
  unfold blank. apply eq_true_iff_eq.
  rewrite !forallb_forall. split; intros H x Hx; apply H.
  - by apply in_rev in Hx.
  - by apply in_rev.
Qed.

Lemma trim_start_suffix (s : jsstring) : ∃ p, s = (p ++ trim_start s) ∧ blank p = true.
Proof.
  induction s as [|c s [p [Hp Hb]]]; simpl.
  - by exists [].
  - destruct (is_white_space c) eqn:Hc.
    + exists (c :: p). simpl. rewrite Hc, Hb. split; [by f_equal|done].
    + by exists [].
Qed.

(** [s.trim()] is the empty string exactly when [s] is blank. *)
Lemma trim_empty_iff_blank (s : jsstring) : trim s = [] ↔ blank s = true.
Proof.
  unfold trim. split.
  - intros H. apply (f_equal (@rev N)) in H. rewrite rev_involutive in H.
    simpl in H. apply trim_start_blank in H. rewrite blank_rev in H.
    destruct (trim_start_suffix s) as [p [Hp Hb]].
    rewrite Hp. unfold blank in *. rewrite forallb_app. by rewrite Hb, H.
  - intros H. apply trim_start_blank in H. by rewrite H.
Qed.

Lemma truthy_trim (s : jsstring) : truthy (method_trim (VStr s)) = negb (blank s).
Proof.
  simpl. destruct (blank s) eqn:Hb.
  - apply trim_empty_iff_blank in Hb. by rewrite Hb.
  - destruct (trim s) eqn:Ht; [|done].
    apply trim_empty_iff_blank in Ht. congruence.
Qed.

(** Reading a property of anything but [null] and [undefined] succeeds and
    changes nothing. *)
Lemma get_prop_defined (v : value) (k : string) (w : world) :
  v ≠ VUndefined → v ≠ VNull →
  get_prop v k w = (Normal (field (heap w) v k), w).
Proof. by destruct v. Qed.

Lemma truthy_defined (v : value) : truthy v = true → v ≠ VUndefined ∧ v ≠ VNull.
Proof. by destruct v. Qed.

Lemma default_param_defined (v d : value) : v ≠ VUndefined → default_param v d = v.
Proof. by destruct v. Qed.

Lemma default_param_idem (v d d' : value) :
  d ≠ VUndefined → default_param (default_param v d) d' = default_param v d.
Proof. destruct v; simpl; try done. by destruct d. Qed.

(** ** The constructor *)

Section Constructor.
Variables (res : value) (w : world).

Lemma Jsend_new_rejects :
  truthy res = false
  ∨ typeof (field (heap w) res "status") ≠ TFunction
  ∨ typeof (field (heap w) res "json") ≠ TFunction →
  Jsend_new res w = (Throw InvalidResponseTarget, w).
Proof.
  unfold Jsend_new. destruct (truthy res) eqn:Ht; simpl; [|done].
  destruct (truthy_defined _ Ht) as [Hu Hn].
  intros Hbad. unfold bind.
  rewrite get_prop_defined by done. case_decide; [done|].
  rewrite get_prop_defined by done. case_decide; [done|].
  destruct Hbad as [?|[?|?]]; done.
Qed.

Lemma Jsend_new_accepts :
  truthy res = true →
  typeof (field (heap w) res "status") = TFunction →
  typeof (field (heap w) res "json") = TFunction →
  Jsend_new res w = (Normal {| this_res := res |}, w).
Proof.
  intros Ht Hs Hj. unfold Jsend_new. rewrite Ht. simpl.
  destruct (truthy_defined _ Ht) as [Hu Hn].
  unfold bind.
  rewrite get_prop_defined by done. case_decide; [done|].
  rewrite get_prop_defined by done. case_decide; done.
Qed.

(** Whatever the target, constructing a [Jsend] leaves the world alone. *)
Lemma Jsend_new_pure : (Jsend_new res w).2 = w.
Proof.
  unfold Jsend_new, bind, throw, ret.
  destruct (truthy res) eqn:Ht; simpl; [|done].
  destruct (truthy_defined _ Ht) as [Hu Hn].
  rewrite get_prop_defined by done. case_decide; [done|].
  rewrite get_prop_defined by done. case_decide; done.
Qed.
End Constructor.

(** C8. Constructing a [Jsend] over a response target that is absent
    (falsy), or whose [status] is not a function, or whose [json] is not a
    function, throws "Invalid Express response object provided." and leaves
    the world, hence the target, as it was; over a target with both
    functions it succeeds and holds that target. *)
Theorem constructor_validates_target (res : value) (w : world) :
  (truthy res = false
   ∨ typeof (field (heap w) res "status") ≠ TFunction
   ∨ typeof (field (heap w) res "json") ≠ TFunction →
   Jsend_new res w = (Throw InvalidResponseTarget, w))
  ∧ (truthy res = true →
     typeof (field (heap w) res "status") = TFunction →
     typeof (field (heap w) res "json") = TFunction →
     Jsend_new res w = (Normal {| this_res := res |}, w)).
Proof. split; [apply Jsend_new_rejects | apply Jsend_new_accepts]. Qed.

Lemma constructor_validates_target_witness :
  Jsend_new VUndefined Sample.w0 = (Throw InvalidResponseTarget, Sample.w0)
  ∧ Jsend_new Sample.details Sample.w0 = (Throw InvalidResponseTarget, Sample.w0)
  ∧ Jsend_new Sample.res Sample.w0 = (Normal {| this_res := Sample.res |}, Sample.w0).
Proof.
  split; [|split].
  - apply (proj1 (constructor_validates_target VUndefined Sample.w0)).
    left. reflexivity.
  - apply (proj1 (constructor_validates_target Sample.details Sample.w0)).
    right. left. vm_compute. discriminate.
  - apply (proj2 (constructor_validates_target Sample.res Sample.w0));
      vm_compute; reflexivity.
Defined.

(** ** success and fail *)

Lemma data_rejected_object_or_null (data : value) :
  data = VNull ∨ typeof data = TObject → data_rejected data = false.
Proof.
  unfold data_rejected. intros [->|H]; [done|].
  rewrite H. rewrite bool_decide_eq_false_2 by auto. apply andb_false_r.
Qed.

Section SuccessFail.
Variables (this : Jsend) (data status statusLabel : value) (w : world).

Lemma success_throws :
  data_rejected data = true →
  success this data status statusLabel w = (Throw InvalidDataKind, w).
Proof.
  unfold data_rejected, success. intros H.
  assert (default_param data VNull = data) as -> by (by destruct data).
  by rewrite H.
Qed.

Lemma fail_throws :
  data_rejected data = true →
  fail this data status statusLabel w = (Throw InvalidDataKind, w).
Proof.
  unfold data_rejected, fail. intros H.
  assert (default_param data VNull = data) as -> by (by destruct data).
  by rewrite H.
Qed.

Lemma success_emits :
  data_rejected (default_param data VNull) = false →
  success this data status statusLabel w =
    (Normal (this_res this),
     emitted w (default_param status (num 200))
       [(js "status", default_param statusLabel (str "success"));
        (js "data", default_param data VNull)]).
Proof.
  unfold data_rejected, success. intros ->.
  unfold bind, res_status, res_json, emit, alloc, ret, emitted, bind. simpl.
  by rewrite <- app_assoc.
Qed.

Lemma fail_emits :
  data_rejected (default_param data VNull) = false →
  fail this data status statusLabel w =
    (Normal (this_res this),
     emitted w (default_param status (num 400))
       [(js "status", default_param statusLabel (str "fail"));
        (js "data", default_param data VNull)]).
Proof.
  unfold data_rejected, fail. intros ->.
  unfold bind, res_status, res_json, emit, alloc, ret, emitted, bind. simpl.
  by rewrite <- app_assoc.
Qed.
End SuccessFail.

(** What [emitted] means for a reader of the world: the trace grew by the
    two calls, the envelope holds exactly [ps], and no other object
    changed. *)
Lemma emitted_spec (w : world) (code : value) (ps : props) :
  ∃ l, trace (emitted w code ps) = (trace w ++ [EStatus code; EJson (VObj KPlain l)])
       ∧ heap (emitted w code ps) !! l = Some ps
       ∧ heap w !! l = None
       ∧ heap w ⊆ heap (emitted w code ps).
Proof.
  exists (fresh_loc (heap w)). unfold emitted. simpl.
  split; [done|]. split; [apply lookup_insert_eq|].
  split; [apply fresh_loc_unused | apply heap_subseteq_alloc].
Qed.

(** C9. An array passed as [data] is not rejected by [success] or [fail]:
    [typeof] of an array is "object", so the call completes and the envelope
    carries the array as its [data]. *)
Theorem arrays_accepted_as_data
    (this : Jsend) (l : loc) (status statusLabel : value) (w : world) :
  success this (VObj KArray l) status statusLabel w =
    (Normal (this_res this),
     emitted w (default_param status (num 200))
       [(js "status", default_param statusLabel (str "success"));
        (js "data", VObj KArray l)])
  ∧ fail this (VObj KArray l) status statusLabel w =
    (Normal (this_res this),
     emitted w (default_param status (num 400))
       [(js "status", default_param statusLabel (str "fail"));
        (js "data", VObj KArray l)]).
Proof. split; [by apply success_emits | by apply fail_emits]. Qed.

(** C10. [success] and [fail] are one function up to their defaults: [fail]
    is [success] with 400 and "fail" filled in for a missing status and
    label, [success] is [fail] with 200 and "success" filled in, and with a
    status and a label both given the two calls agree on every input: they
    throw on the same data and otherwise leave the same world. *)
Theorem success_fail_same_function
    (this : Jsend) (data status statusLabel : value) (w : world) :
  fail this data status statusLabel w =
    success this data (default_param status (num 400))
      (default_param statusLabel (str "fail")) w
  ∧ success this data status statusLabel w =
    fail this data (default_param status (num 200))
      (default_param statusLabel (str "success")) w
  ∧ (status ≠ VUndefined → statusLabel ≠ VUndefined →
     success this data status statusLabel w = fail this data status statusLabel w).
Proof.
  split; [|split].
  - unfold fail, success. by rewrite !default_param_idem.
  - unfold fail, success. by rewrite !default_param_idem.
  - intros Hs Hl. unfold fail, success.
    by rewrite !(default_param_defined status), !(default_param_defined statusLabel).
Qed.

Lemma success_fail_same_function_witness :
  success {| this_res := Sample.res |} Sample.details (num 201) (str "created") Sample.w0
  = fail {| this_res := Sample.res |} Sample.details (num 201) (str "created") Sample.w0
  ∧ success {| this_res := Sample.res |} (str "text") (num 201) (str "created") Sample.w0
  = fail {| this_res := Sample.res |} (str "text") (num 201) (str "created") Sample.w0.
Proof.
  split.
  - apply (proj2 (proj2 (success_fail_same_function
      {| this_res := Sample.res |} Sample.details (num 201) (str "created") Sample.w0)));
      discriminate.
  - apply (proj2 (proj2 (success_fail_same_function
      {| this_res := Sample.res |} (str "text") (num 201) (str "created") Sample.w0)));
      discriminate.
Defined.

(** With the defaults left to apply, the two differ in the status code
    sent. *)
Example success_fail_defaults_differ :
  trace (success {| this_res := Sample.res |} VNull VUndefined VUndefined Sample.w0).2
    = [EStatus (num 200); EJson (VObj KPlain 12%positive)]
  ∧ trace (fail {| this_res := Sample.res |} VNull VUndefined VUndefined Sample.w0).2
    = [EStatus (num 400); EJson (VObj KPlain 12%positive)].
Proof. split; vm_compute; reflexivity. Qed.

(** ** error *)

Lemma message_rejected_non_blank (message : value) :
  non_blank_string message ↔ message_rejected message = false.
Proof.
  unfold message_rejected, non_blank_string. split.
  - intros (s & -> & Hs). rewrite truthy_trim, Hs. done.
  - intros H. apply orb_false_iff in H as [Ht Hb].
    apply bool_decide_eq_false in Ht.
    destruct message as [| | | | |s| |]; simpl in Ht; try (by destruct Ht).
    exists s. split; [done|]. rewrite truthy_trim in Hb.
    by destruct (blank s).
Qed.

Section Error.
Variables (this : Jsend) (message status options statusLabel : value) (w : world).

Local Abbreviation message' := (default_param message (str "Internal Server Error")).
Local Abbreviation status' := (default_param status (num 500)).
Local Abbreviation label' := (default_param statusLabel (str "error")).
Local Abbreviation extra := (field (heap w) options "extra").
Local Abbreviation code := (field (heap w) options "code").
Local Abbreviation details := (field (heap w) options "details").

(** The message is checked first: a rejected message throws whatever the
    options are. *)
Lemma error_message_throws :
  message_rejected message' = true →
  ∃ w', error this message status options statusLabel w = (Throw InvalidMessage, w')
        ∧ no_write w w'.
Proof.
  intros H. unfold error. unfold message_rejected in H.
  destruct options; simpl; unfold bind, ret, alloc; simpl; rewrite H;
    (eexists; split; [reflexivity|]); try apply no_write_refl.
  repeat split; simpl; try done. apply heap_subseteq_alloc.
Qed.

(** With options given, the call is decided by the two checks and the
    envelope is built from the options as they are in the store. *)
Lemma error_with_options :
  options ≠ VUndefined → options ≠ VNull →
  message_rejected message' = false →
  error this message status options statusLabel w =
    if extra_rejected extra then (Throw InvalidExtraKind, w)
    else (Normal (this_res this),
          emitted (with_copy w extra) status'
            ([(js "status", label'); (js "message", message')]
             ++ optional "code" code
             ++ optional "details" details
             ++ (if truthy extra then [(js "extra", copy_of w extra)] else []))).
Proof.
  intros Hu Hn Hm. unfold error.
  unfold message_rejected in Hm. rewrite Hm.
  assert (default_object options = ret options) as -> by (by destruct options).
  unfold bind at 1. unfold ret at 1.
  unfold bind at 1. rewrite get_prop_defined by done.
  unfold extra_rejected. destruct (truthy extra && _) eqn:Hx; [done|].
  unfold bind at 1. rewrite get_prop_defined by done.
  unfold bind at 1. rewrite get_prop_defined by done.
  unfold with_copy, copy_of, optional, spread_and, spread.
  destruct (truthy extra) eqn:Hte.
  - repeat (unfold bind, alloc, res_status, res_json, emit, ret, emitted; simpl).
    by rewrite <- app_assoc.
  - repeat (unfold bind, alloc, res_status, res_json, emit, ret, emitted; simpl).
    by rewrite <- app_assoc, app_nil_r.
Qed.

(** With no options, [{}] stands in and the envelope has the two
    mandatory keys only. *)
Lemma error_without_options :
  options = VUndefined →
  message_rejected message' = false →
  error this message status options statusLabel w =
    (Normal (this_res this),
     emitted (World (<[fresh_loc (heap w) := []]> (heap w)) (funs w) (trace w))
       status' [(js "status", label'); (js "message", message')]).
Proof.
  intros Ho Hm. unfold error.
  unfold message_rejected in Hm. rewrite Hm, Ho.
  unfold bind, default_object, alloc, get_prop, field, own_props; simpl.
  rewrite lookup_insert_eq. simpl.
  repeat (unfold bind, alloc, res_status, res_json, emit, ret, emitted; simpl).
  rewrite !lookup_insert_eq. simpl.
  by rewrite <- app_assoc.
Qed.
End Error.

Lemma error_null_options
    (this : Jsend) (message status statusLabel : value) (w : world) :
  message_rejected (default_param message (str "Internal Server Error")) = false →
  error this message status VNull statusLabel w = (Throw TypeError, w).
Proof.
  intros Hm. unfold error. unfold message_rejected in Hm. by rewrite Hm.
Qed.

Lemma field_undefined (h : gmap loc props) (k : string) : field h VUndefined k = VUndefined.
Proof. done. Qed.

Lemma no_write_with_copy (w : world) (extra : value) : no_write w (with_copy w extra).
Proof.
  unfold with_copy. destruct (truthy extra); [|apply no_write_refl].
  repeat split; simpl; try done. apply heap_subseteq_alloc.
Qed.

Lemma assoc_app (k : jsstring) (ps qs : props) :
  assoc k (ps ++ qs) = match assoc k ps with Some v => Some v | None => assoc k qs end.
Proof.
  induction ps as [|[k' v] ps IH]; simpl; [done|].
  by case_decide.
Qed.

Lemma assoc_optional_other (k k' : string) (v : value) :
  js k ≠ js k' → assoc (js k) (optional k' v) = None.
Proof.
  intros Hne. unfold optional. destruct (truthy v); simpl; [|done].
  by case_decide.
Qed.

(** The envelope of a call that passes both checks, for options given or
    left out. *)
Lemma error_emits
    (this : Jsend) (message status options statusLabel : value) (w : world) :
  let extra := field (heap w) options "extra" in
  message_rejected (default_param message (str "Internal Server Error")) = false →
  options ≠ VNull →
  extra_rejected extra = false →
  ∃ w1 copy,
    error this message status options statusLabel w =
      (Normal (this_res this),
       emitted w1 (default_param status (num 500))
         ([(js "status", default_param statusLabel (str "error"));
           (js "message", default_param message (str "Internal Server Error"))]
          ++ optional "code" (field (heap w) options "code")
          ++ optional "details" (field (heap w) options "details")
          ++ (if truthy extra then [(js "extra", copy)] else [])))
    ∧ no_write w w1.
Proof.
  intros extra Hm Hn Hx.
  assert (options = VUndefined ∨ options ≠ VUndefined) as [->|Hu]
    by (destruct options; auto).
  - eexists _, VUndefined. rewrite error_without_options by done.
    split; [reflexivity|].
    repeat split; simpl; try done. apply heap_subseteq_alloc.
  - exists (with_copy w extra), (copy_of w extra).
    rewrite error_with_options by done. fold extra. rewrite Hx.
    split; [done | apply no_write_with_copy].
Qed.

(** C3. [error] builds its envelope by presence-conditional inclusion: after
    [status] and [message], the key [code] (resp. [details]) is there with
    the option's own value exactly when that value is truthy, and [extra] is
    there exactly when [options.extra] is truthy; nothing is emitted for an
    absent or falsy option.  On the README's call
    [error("DB down", 500, {code, details, extra})] the envelope is exactly
    [{status:"error", message:"DB down", code:"DB_ERR",
    details:{retryAfter:60}, extra:{traceId:"abc123"}}] with status 500, and
    [error("Oops")] sends exactly [{status:"error", message:"Oops"}] with
    status 500. *)
Theorem error_envelope_presence_conditional
    (this : Jsend) (message status options statusLabel : value) (w : world) :
  (non_blank_string (default_param message (str "Internal Server Error")) →
   options ≠ VNull →
   extra_rejected (field (heap w) options "extra") = false →
   ∃ w1 copy,
     error this message status options statusLabel w =
       (Normal (this_res this),
        emitted w1 (default_param status (num 500))
          ([(js "status", default_param statusLabel (str "error"));
            (js "message", default_param message (str "Internal Server Error"))]
           ++ optional "code" (field (heap w) options "code")
           ++ optional "details" (field (heap w) options "details")
           ++ (if truthy (field (heap w) options "extra")
               then [(js "extra", copy)] else [])))
     ∧ no_write w w1)
  ∧ (∃ w' body,
       call_jsend Sample.res "error" [str "DB down"; num 500; Sample.options]
         (Sample.installed VUndefined) = Some (Normal Sample.res, w')
       ∧ trace w' = [ENext; EStatus (num 500); EJson body]
       ∧ unfold_value 2 (heap w') body =
           Node KPlain
             [(js "status", Leaf (str "error"));
              (js "message", Leaf (str "DB down"));
              (js "code", Leaf (str "DB_ERR"));
              (js "details", Node KPlain [(js "retryAfter", Leaf (num 60))]);
              (js "extra", Node KPlain [(js "traceId", Leaf (str "abc123"))])])
  ∧ (∃ w' body,
       call_jsend Sample.res "error" [str "Oops"]
         (Sample.installed VUndefined) = Some (Normal Sample.res, w')
       ∧ trace w' = [ENext; EStatus (num 500); EJson body]
       ∧ unfold_value 2 (heap w') body =
           Node KPlain
             [(js "status", Leaf (str "error"));
              (js "message", Leaf (str "Oops"))]).
Proof.
  split; [|split].
  - intros Hm Hn Hx. apply message_rejected_non_blank in Hm.
    by apply error_emits.
  - eexists _, _. split; [vm_compute; reflexivity|].
    split; vm_compute; reflexivity.
  - eexists _, _. split; [vm_compute; reflexivity|].
    split; vm_compute; reflexivity.
Qed.

Lemma error_envelope_presence_conditional_witness :
  ∃ w1 copy,
    error {| this_res := Sample.res |} (str "DB down") (num 500) Sample.options
      VUndefined Sample.w0 =
      (Normal Sample.res,
       emitted w1 (num 500)
         [(js "status", str "error"); (js "message", str "DB down");
          (js "code", str "DB_ERR"); (js "details", Sample.details);
          (js "extra", copy)])
    ∧ no_write Sample.w0 w1.
Proof.
  apply (proj1 (error_envelope_presence_conditional
    {| this_res := Sample.res |} (str "DB down") (num 500) Sample.options
    VUndefined Sample.w0)).
  - exists (js "DB down"). split; reflexivity.
  - discriminate.
  - vm_compute. reflexivity.
Defined.

(** C4, as stated, fails: a missing message is not rejected.  The parameter
    default supplies "Internal Server Error", so [error()] sends an
    envelope. *)
Lemma error_missing_message_counterexample :
  ¬ (∀ (this : Jsend) (message status options statusLabel : value) (w : world),
       message = VUndefined
       ∨ typeof message ≠ TString
       ∨ (∃ s, message = VStr s ∧ blank s = true) →
       ∃ w', error this message status options statusLabel w
             = (Throw InvalidMessage, w')
             ∧ trace w' = trace w).
Proof.
  intros H.
  destruct (H {| this_res := Sample.res |} VUndefined VUndefined VUndefined
              VUndefined Sample.w0) as (w' & Hr & _); [by left|].
  vm_compute in Hr. discriminate Hr.
Qed.

(** What [error()] does instead. *)
Example error_missing_message_default :
  ∃ w' body,
    error {| this_res := Sample.res |} VUndefined VUndefined VUndefined VUndefined
      Sample.w0 = (Normal Sample.res, w')
    ∧ trace w' = [EStatus (num 500); EJson body]
    ∧ unfold_value 1 (heap w') body =
        Node KPlain [(js "status", Leaf (str "error"));
                     (js "message", Leaf (str "Internal Server Error"))].
Proof.
  eexists _, _. split; [vm_compute; reflexivity|].
  split; vm_compute; reflexivity.
Qed.

(** C4, amended. Whenever a message is passed (it is not [undefined]) and
    it is not a string or is a blank string, [error] throws "Error response
    must include a non-empty message string." and writes nothing: no call
    reaches the response and every existing object is unchanged.  A missing
    message never raises that error: it is replaced by the default, so that
    when the options pass the envelope sent carries
    [message: "Internal Server Error"]. *)
Theorem error_rejects_invalid_message
    (this : Jsend) (message status options statusLabel : value) (w : world) :
  (message ≠ VUndefined →
   typeof message ≠ TString ∨ (∃ s, message = VStr s ∧ blank s = true) →
   ∃ w', error this message status options statusLabel w = (Throw InvalidMessage, w')
         ∧ no_write w w')
  ∧ (message = VUndefined →
     (∀ w', error this message status options statusLabel w
            ≠ (Throw InvalidMessage, w'))
     ∧ (options ≠ VNull →
        extra_rejected (field (heap w) options "extra") = false →
        ∃ w1 copy,
          error this message status options statusLabel w =
            (Normal (this_res this),
             emitted w1 (default_param status (num 500))
               ([(js "status", default_param statusLabel (str "error"));
                 (js "message", str "Internal Server Error")]
                ++ optional "code" (field (heap w) options "code")
                ++ optional "details" (field (heap w) options "details")
                ++ (if truthy (field (heap w) options "extra")
                    then [(js "extra", copy)] else [])))
          ∧ no_write w w1)).
Proof.
  split.
  - intros Hd Hbad. apply error_message_throws.
    rewrite default_param_defined by done.
    destruct (message_rejected message) eqn:Hm; [done|].
    apply message_rejected_non_blank in Hm as (s & -> & Hs).
    destruct Hbad as [Ht|(s' & [= <-] & Hb)]; [by destruct Ht | congruence].
  - intros ->.
    assert (message_rejected (default_param VUndefined (str "Internal Server Error")) = false)
      as Hm by (vm_compute; reflexivity).
    split.
    + intros w'.
      assert (options = VNull ∨ options ≠ VNull) as [->|Hn] by (destruct options; auto).
      * by rewrite error_null_options.
      * assert (options = VUndefined ∨ options ≠ VUndefined) as [->|Hu]
          by (destruct options; auto).
        -- by rewrite error_without_options.
        -- rewrite error_with_options by done.
           by destruct (extra_rejected _).
    + intros Hn Hx.
      apply (error_emits this VUndefined status options statusLabel w Hm Hn Hx).
Qed.

Lemma error_rejects_invalid_message_witness :
  (∃ w', error {| this_res := Sample.res |} (str "   ") (num 500) Sample.options
           VUndefined Sample.w0 = (Throw InvalidMessage, w')
         ∧ no_write Sample.w0 w')
  ∧ (∃ w', error {| this_res := Sample.res |} (num 42) VUndefined VUndefined
             VUndefined Sample.w0 = (Throw InvalidMessage, w')
           ∧ no_write Sample.w0 w')
  ∧ (∀ w', error {| this_res := Sample.res |} VUndefined VUndefined VUndefined
             VUndefined Sample.w0 ≠ (Throw InvalidMessage, w'))
  ∧ (∃ w1,
       error {| this_res := Sample.res |} VUndefined VUndefined VUndefined
         VUndefined Sample.w0 =
         (Normal Sample.res,
          emitted w1 (num 500)
            [(js "status", str "error");
             (js "message", str "Internal Server Error")])
       ∧ no_write Sample.w0 w1).
Proof.
  split; [|split; [|split]].
  - apply (proj1 (error_rejects_invalid_message {| this_res := Sample.res |}
      (str "   ") (num 500) Sample.options VUndefined Sample.w0)).
    + discriminate.
    + right. exists (js "   "). split; reflexivity.
  - apply (proj1 (error_rejects_invalid_message {| this_res := Sample.res |}
      (num 42) VUndefined VUndefined VUndefined Sample.w0)).
    + discriminate.
    + left. discriminate.
  - apply (proj1 (proj2 (error_rejects_invalid_message {| this_res := Sample.res |}
      VUndefined VUndefined VUndefined VUndefined Sample.w0) eq_refl)).
  - destruct (proj2 (proj2 (error_rejects_invalid_message {| this_res := Sample.res |}
      VUndefined VUndefined VUndefined VUndefined Sample.w0) eq_refl))
      as (w1 & copy & Hr & Hw); [discriminate | reflexivity |].
    exists w1. split; [exact Hr | exact Hw].
Defined.

(** C5, as stated, fails: an [extra] that is present, is not an object, and
    is falsy (here the empty string) is not rejected; the call goes through
    and the envelope has no [extra] key. *)
Lemma error_falsy_extra_counterexample :
  ¬ (∀ (this : Jsend) (message status options statusLabel : value) (w : world)
       (x : value),
       assoc (js "extra") (own_props (heap w) options) = Some x →
       typeof x ≠ TObject →
       ∃ w', error this message status options statusLabel w
             = (Throw InvalidExtraKind, w')
             ∧ trace w' = trace w).
Proof.
  intros H.
  destruct (H {| this_res := Sample.res |} (str "Oops") (num 500)
              Sample.options_empty_extra VUndefined Sample.w0 (str ""))
    as (w' & Hr & _).
  - vm_compute. reflexivity.
  - discriminate.
  - vm_compute in Hr. discriminate Hr.
Qed.

(** What [error("Oops", 500, {extra: ""})] does instead. *)
Example error_falsy_extra_sent :
  ∃ w' body,
    error {| this_res := Sample.res |} (str "Oops") (num 500)
      Sample.options_empty_extra VUndefined Sample.w0 = (Normal Sample.res, w')
    ∧ trace w' = [EStatus (num 500); EJson body]
    ∧ unfold_value 1 (heap w') body =
        Node KPlain [(js "status", Leaf (str "error"));
                     (js "message", Leaf (str "Oops"))].
Proof.
  eexists _, _. split; [vm_compute; reflexivity|].
  split; vm_compute; reflexivity.
Qed.

(** The message is validated first: with a blank message the same call is
    refused for its message, not for its [extra]. *)
Example error_blank_message_before_extra :
  error {| this_res := Sample.res |} (str " ") (num 500)
    Sample.options_string_extra VUndefined Sample.w0
  = (Throw InvalidMessage, Sample.w0).
Proof. vm_compute. reflexivity. Qed.

(** C5, amended. With a message that passes, whenever [options.extra] is
    truthy and [typeof options.extra] is not "object" (a non-empty string, a
    non-zero number, [true], a function), [error] throws "Extra must be an
    object." and the world is exactly as before: nothing was written.  A
    falsy [extra] counts as absent: it never raises that error, and with
    options that are not [null] the envelope is sent with [status],
    [message] and the optional [code] and [details] only; it has no [extra]
    key. *)
Theorem error_rejects_truthy_non_object_extra
    (this : Jsend) (message status options statusLabel : value) (w : world) :
  non_blank_string (default_param message (str "Internal Server Error")) →
  (truthy (field (heap w) options "extra") = true →
   typeof (field (heap w) options "extra") ≠ TObject →
   error this message status options statusLabel w = (Throw InvalidExtraKind, w))
  ∧ (truthy (field (heap w) options "extra") = false →
     (∀ w', error this message status options statusLabel w
            ≠ (Throw InvalidExtraKind, w'))
     ∧ (options ≠ VNull →
        ∃ w1 envelope,
          error this message status options statusLabel w =
            (Normal (this_res this),
             emitted w1 (default_param status (num 500)) envelope)
          ∧ envelope =
              [(js "status", default_param statusLabel (str "error"));
               (js "message", default_param message (str "Internal Server Error"))]
              ++ optional "code" (field (heap w) options "code")
              ++ optional "details" (field (heap w) options "details")
          ∧ assoc (js "extra") envelope = None
          ∧ no_write w w1)).
Proof.
  intros Hm. apply message_rejected_non_blank in Hm. split.
  - intros Ht Hty.
    assert (options ≠ VUndefined ∧ options ≠ VNull) as [Hu Hn]
      by (split; intros ->; discriminate Ht).
    rewrite error_with_options by done.
    unfold extra_rejected. rewrite Ht. simpl.
    by rewrite bool_decide_eq_true_2.
  - intros Ht. split.
    + intros w'.
      assert (options = VNull ∨ options ≠ VNull) as [->|Hn] by (destruct options; auto).
      * by rewrite error_null_options.
      * assert (options = VUndefined ∨ options ≠ VUndefined) as [->|Hu]
          by (destruct options; auto).
        -- by rewrite error_without_options.
        -- rewrite error_with_options by done.
           unfold extra_rejected. by rewrite Ht.
    + intros Hn.
      assert (extra_rejected (field (heap w) options "extra") = false) as Hx
        by (unfold extra_rejected; by rewrite Ht).
      destruct (error_emits this message status options statusLabel w Hm Hn Hx)
        as (w1 & copy & Hr & Hw).
      rewrite Ht, app_nil_r in Hr.
      eexists w1, _. split; [exact Hr|]. split; [reflexivity|]. split; [|done].
      rewrite !assoc_app, !assoc_optional_other by (vm_compute; discriminate).
      vm_compute. reflexivity.
Qed.

Lemma error_rejects_truthy_non_object_extra_witness :
  error {| this_res := Sample.res |} (str "Oops") (num 500)
    Sample.options_string_extra VUndefined Sample.w0
  = (Throw InvalidExtraKind, Sample.w0)
  ∧ (∀ w', error {| this_res := Sample.res |} (str "Oops") (num 500)
             Sample.options_empty_extra VUndefined Sample.w0
           ≠ (Throw InvalidExtraKind, w'))
  ∧ (∃ w1 envelope,
       error {| this_res := Sample.res |} (str "Oops") (num 500)
         Sample.options_empty_extra VUndefined Sample.w0 =
         (Normal Sample.res, emitted w1 (num 500) envelope)
       ∧ envelope = [(js "status", str "error"); (js "message", str "Oops")]
       ∧ assoc (js "extra") envelope = None
       ∧ no_write Sample.w0 w1).
Proof.
  assert (truthy (field (heap Sample.w0) Sample.options_empty_extra "extra") = false)
    as Hfalsy by (vm_compute; reflexivity).
  split; [|split].
  - apply (proj1 (error_rejects_truthy_non_object_extra {| this_res := Sample.res |}
      (str "Oops") (num 500) Sample.options_string_extra VUndefined Sample.w0
      (ex_intro _ (js "Oops") (conj eq_refl eq_refl)))).
    + vm_compute. reflexivity.
    + vm_compute. discriminate.
  - apply (proj1 (proj2 (error_rejects_truthy_non_object_extra
      {| this_res := Sample.res |}
      (str "Oops") (num 500) Sample.options_empty_extra VUndefined Sample.w0
      (ex_intro _ (js "Oops") (conj eq_refl eq_refl))) Hfalsy)).
  - destruct (proj2 (proj2 (error_rejects_truthy_non_object_extra
      {| this_res := Sample.res |}
      (str "Oops") (num 500) Sample.options_empty_extra VUndefined Sample.w0
      (ex_intro _ (js "Oops") (conj eq_refl eq_refl))) Hfalsy))
      as (w1 & envelope & Hr & Henv & Hno & Hw); [discriminate|].
    exists w1, envelope. split; [exact Hr|]. split; [|split; [exact Hno|exact Hw]].
    rewrite Henv. vm_compute. reflexivity.
Defined.

(** ** The copy of [extra] *)

(** C7. When [error] is called with [options.extra] an object, the
    envelope's [extra] is a new object: it is not the caller's object (nor
    is the envelope), it holds the caller's properties entry for entry as
    they were at the call, the call leaves the caller's object as it was,
    and whatever is later stored in the caller's object changes neither the
    copy nor the envelope. *)
Theorem error_extra_is_shallow_copy
    (this : Jsend) (message status options statusLabel : value) (w : world)
    (k : obj_kind) (lc : loc) (ps : props) :
  non_blank_string (default_param message (str "Internal Server Error")) →
  field (heap w) options "extra" = VObj k lc →
  k ≠ KFunction →
  heap w !! lc = Some ps →
  ∃ w' le lx envelope,
    error this message status options statusLabel w = (Normal (this_res this), w')
    ∧ last (trace w') = Some (EJson (VObj KPlain le))
    ∧ heap w' !! le = Some envelope
    ∧ assoc (js "extra") envelope = Some (VObj KPlain lx)
    ∧ lx ≠ lc ∧ le ≠ lc
    ∧ heap w' !! lx = Some ps
    ∧ heap w' !! lc = Some ps
    ∧ ∀ ps', <[lc := ps']> (heap w') !! lx = Some ps
             ∧ <[lc := ps']> (heap w') !! le = Some envelope.
Proof.
  intros Hm Hx Hk Hlc. apply message_rejected_non_blank in Hm.
  assert (options ≠ VUndefined ∧ options ≠ VNull) as [Hu Hn]
    by (split; intros ->; discriminate Hx).
  rewrite error_with_options by done. rewrite Hx.
  assert (extra_rejected (VObj k lc) = false) as -> by (by destruct k).
  unfold with_copy, copy_of, emitted, own_props. rewrite Hlc. simpl.
  set (lx := fresh_loc (heap w)).
  set (h1 := <[lx := ps]> (heap w)).
  set (le := fresh_loc h1).
  assert (lx ≠ lc) as Hxc by (apply fresh_loc_ne; eauto).
  assert (h1 !! lc = Some ps) as H1c by (unfold h1; by rewrite lookup_insert_ne).
  assert (h1 !! lx = Some ps) as H1x by (unfold h1; by rewrite lookup_insert_eq).
  assert (le ≠ lc) as Hec by (apply fresh_loc_ne; eauto).
  assert (le ≠ lx) as Hex by (apply fresh_loc_ne; eauto).
  eexists _, le, lx, _. split; [reflexivity|]. simpl.
  split; [by rewrite last_snoc with (x := EJson (VObj KPlain le))
                                    (l := (trace w ++ [EStatus _]))
          || (rewrite last_app; done)|].
  split; [apply lookup_insert_eq|].
  split.
  { change (assoc (js "extra")
      ([(js "status", default_param statusLabel (str "error"));
        (js "message", default_param message (str "Internal Server Error"))]
       ++ optional "code" (field (heap w) options "code")
       ++ optional "details" (field (heap w) options "details")
       ++ [(js "extra", VObj KPlain lx)]) = Some (VObj KPlain lx)).
    rewrite !assoc_app, !assoc_optional_other by (vm_compute; discriminate).
    vm_compute. reflexivity. }
  split; [done|]. split; [done|].
  split; [by rewrite lookup_insert_ne|].
  split; [by rewrite lookup_insert_ne|].
  intros ps'. split.
  - rewrite lookup_insert_ne by done. by rewrite lookup_insert_ne.
  - rewrite lookup_insert_ne by done. apply lookup_insert_eq.
Qed.

Lemma error_extra_is_shallow_copy_witness :
  ∃ w' le lx envelope,
    error {| this_res := Sample.res |} (str "DB down") (num 500) Sample.options
      VUndefined Sample.w0 = (Normal Sample.res, w')
    ∧ last (trace w') = Some (EJson (VObj KPlain le))
    ∧ heap w' !! le = Some envelope
    ∧ assoc (js "extra") envelope = Some (VObj KPlain lx)
    ∧ lx ≠ 6%positive ∧ le ≠ 6%positive
    ∧ heap w' !! lx = Some [(js "traceId", str "abc123")]
    ∧ heap w' !! 6%positive = Some [(js "traceId", str "abc123")]
    ∧ ∀ ps', <[6%positive := ps']> (heap w') !! lx = Some [(js "traceId", str "abc123")]
             ∧ <[6%positive := ps']> (heap w') !! le = Some envelope.
Proof.
  apply (error_extra_is_shallow_copy {| this_res := Sample.res |} (str "DB down")
           (num 500) Sample.options VUndefined Sample.w0 KPlain 6%positive
           [(js "traceId", str "abc123")]).
  - exists (js "DB down"). split; reflexivity.
  - vm_compute. reflexivity.
  - discriminate.
  - vm_compute. reflexivity.
Defined.

(** The same on the README's call: the caller overwrites [traceId] and adds
    a key after the response was sent; the envelope still reads as sent
    while the caller's object shows the change. *)
Example error_extra_survives_mutation :
  let w' := (error {| this_res := Sample.res |} (str "DB down") (num 500)
               Sample.options VUndefined Sample.w0).2 in
  let w'' := ((let! _ := set_prop Sample.extra "traceId" (str "changed") in
               set_prop Sample.extra "late" (VBool true)) w').2 in
  ∃ body,
    last (trace w'') = Some (EJson body)
    ∧ unfold_value 2 (heap w'') body =
        Node KPlain
          [(js "status", Leaf (str "error"));
           (js "message", Leaf (str "DB down"));
           (js "code", Leaf (str "DB_ERR"));
           (js "details", Node KPlain [(js "retryAfter", Leaf (num 60))]);
           (js "extra", Node KPlain [(js "traceId", Leaf (str "abc123"))])]
    ∧ unfold_value 1 (heap w'') Sample.extra =
        Node KPlain [(js "traceId", Leaf (str "changed"));
                     (js "late", Leaf (VBool true))].
Proof.
  eexists. split; [vm_compute; reflexivity|].
  split; vm_compute; reflexivity.
Qed.

(** The copy is shallow: an object nested in [extra] is shared, not
    copied. *)
Example error_extra_copy_is_shallow :
  let w1 := (set_prop Sample.extra "inner" Sample.details Sample.w0).2 in
  let w' := (error {| this_res := Sample.res |} (str "DB down") (num 500)
               Sample.options VUndefined w1).2 in
  ∃ le lx envelope,
    last (trace w') = Some (EJson (VObj KPlain le))
    ∧ heap w' !! le = Some envelope
    ∧ assoc (js "extra") envelope = Some (VObj KPlain lx)
    ∧ (assoc (js "inner") <$> heap w' !! lx) = Some (Some Sample.details).
Proof.
  eexists _, _, _. split; [vm_compute; reflexivity|].
  split; [vm_compute; reflexivity|].
  split; vm_compute; reflexivity.
Qed.

(** ** The middleware *)

Lemma assoc_set_same (k : jsstring) (v : value) (ps : props) :
  assoc k (assoc_set k v ps) = Some v.
Proof.
  induction ps as [|[k' v'] ps IH]; simpl.
  - by case_decide.
  - case_decide; simpl; case_decide; done.
Qed.

Lemma assoc_set_other (k k' : jsstring) (v : value) (ps : props) :
  k ≠ k' → assoc k' (assoc_set k v ps) = assoc k' ps.
Proof.
  intros Hne. induction ps as [|[k0 v0] ps IH]; simpl.
  - by case_decide.
  - repeat (case_decide; simpl); congruence.
Qed.

(** A value with a function-valued property is an object of the store. *)
Lemma field_function_inv (h : gmap loc props) (v : value) (k : string) :
  typeof (field h v k) = TFunction →
  ∃ kd l ps, v = VObj kd l ∧ h !! l = Some ps.
Proof.
  unfold field, own_props. destruct v as [| | | | | | |kd l]; try discriminate.
  destruct (h !! l) as [ps|] eqn:Hl; [eauto|discriminate].
Qed.

(** One step of a computation on an explicit world. *)
Lemma run_alloc {A} (k : obj_kind) (ps : props) (f : value → M A) (w : world) :
  (let! x := alloc k ps in f x) w =
  f (VObj k (fresh_loc (heap w)))
    (World (<[fresh_loc (heap w) := ps]> (heap w)) (funs w) (trace w)).
Proof. done. Qed.

Lemma run_alloc_closure {A} (c : closure) (f : value → M A) (w : world) :
  (let! x := alloc_closure c in f x) w =
  f (VObj KFunction (fresh_loc (heap w)))
    (World (<[fresh_loc (heap w) := []]> (heap w))
           (<[fresh_loc (heap w) := c]> (funs w)) (trace w)).
Proof. done. Qed.

Lemma run_get_prop {A} (k : obj_kind) (l : loc) (key : string) (f : value → M A)
    (w : world) :
  (let! x := get_prop (VObj k l) key in f x) w = f (field (heap w) (VObj k l) key) w.
Proof. done. Qed.

Lemma run_set_prop {A} (k : obj_kind) (l : loc) (key : string) (x : value)
    (ps : props) (m : M A) (w : world) :
  heap w !! l = Some ps →
  (let! _ := set_prop (VObj k l) key x in m) w =
  m (World (<[l := assoc_set (js key) x ps]> (heap w)) (funs w) (trace w)).
Proof. intros H. unfold bind, set_prop, own_props. by rewrite H. Qed.

Lemma field_lookup (h : gmap loc props) (k : obj_kind) (l : loc) (key : string)
    (ps : props) (v : value) :
  h !! l = Some ps → assoc (js key) ps = Some v → field h (VObj k l) key = v.
Proof. intros Hl Hk. unfold field, own_props. rewrite Hl. simpl. by rewrite Hk. Qed.

(** One statement [res.jsend.name = (...) => ...] of the middleware, run on
    a world in which [res.jsend] is the object at [li]. *)
Lemma run_attach {A} (kd : obj_kind) (lr li : loc) (name : string) (c : closure)
    (m : M A) (psr psi : props) (w : world) :
  heap w !! lr = Some psr →
  assoc (js "jsend") psr = Some (VObj KPlain li) →
  heap w !! li = Some psi →
  (let! o := get_prop (VObj kd lr) "jsend" in
   let! f := alloc_closure c in
   let! _ := set_prop o name f in m) w =
  m (World (<[li := assoc_set (js name) (VObj KFunction (fresh_loc (heap w))) psi]>
              (<[fresh_loc (heap w) := []]> (heap w)))
           (<[fresh_loc (heap w) := c]> (funs w)) (trace w)).
Proof.
  intros Hr Hj Hi.
  rewrite run_get_prop, (field_lookup _ _ _ _ _ _ Hr Hj), run_alloc_closure.
  rewrite (run_set_prop _ _ _ _ psi); [done|]. simpl.
  rewrite lookup_insert_ne; [done|]. apply fresh_loc_ne; eauto.
Qed.

Section Middleware.
Variables (cfg : Labels) (req res next : value) (w : world).
Hypothesis res_truthy : truthy res = true.
Hypothesis res_status_fn : typeof (field (heap w) res "status") = TFunction.
Hypothesis res_json_fn : typeof (field (heap w) res "json") = TFunction.
Hypothesis next_fn : typeof next = TFunction.

Lemma middleware_attaches :
  ∃ w',
    middleware cfg req res next w = (Normal (), w')
    ∧ trace w' = trace w ++ [ENext]
    ∧ (∀ k, js k ≠ js "jsend" → field (heap w') res k = field (heap w) res k)
    ∧ (∀ args, call_jsend res "success" args w' =
               Some (apply_closure (CSuccess res (successLabel cfg)) args w'))
    ∧ (∀ args, call_jsend res "fail" args w' =
               Some (apply_closure (CFail res (failLabel cfg)) args w'))
    ∧ (∀ args, call_jsend res "error" args w' =
               Some (apply_closure (CError res (errorLabel cfg)) args w')).
Proof.
  destruct (field_function_inv _ _ _ res_status_fn) as (kd & lr & psr & Hres & Hlr).
  unfold middleware. unfold bind at 1.
  rewrite Jsend_new_accepts by done. simpl this_res. rewrite Hres.
  (* new Jsend(res) *)
  rewrite run_alloc.
  set (li := fresh_loc (heap w)). set (h1 := <[li := _]> (heap w)).
  assert (li ≠ lr) as Hir by (apply fresh_loc_ne; eauto).
  assert (h1 !! lr = Some psr) as H1r by (unfold h1; by rewrite lookup_insert_ne).
  (* res.jsend = ... *)
  rewrite (run_set_prop _ _ _ _ psr) by done. simpl heap; simpl funs; simpl trace.
  set (psr' := assoc_set (js "jsend") (VObj KPlain li) psr).
  set (h2 := <[lr := psr']> h1).
  assert (h2 !! lr = Some psr') as H2r by apply lookup_insert_eq.
  assert (h2 !! li = Some [(js "res", VObj kd lr)]) as H2i.
  { unfold h2, h1. rewrite lookup_insert_ne by done. apply lookup_insert_eq. }
  assert (assoc (js "jsend") psr' = Some (VObj KPlain li)) as Hj
    by apply assoc_set_same.
  (* res.jsend.success = ... *)
  erewrite run_attach; [|exact H2r|exact Hj|exact H2i].
  simpl heap; simpl funs; simpl trace.
  set (l1 := fresh_loc h2).
  assert (l1 ≠ lr) as H1 by (apply fresh_loc_ne; eauto).
  assert (l1 ≠ li) as H1' by (apply fresh_loc_ne; eauto).
  set (psi1 := assoc_set (js "success") (VObj KFunction l1) _).
  set (h3 := <[li := psi1]> _).
  assert (h3 !! lr = Some psr') as H3r
    by (unfold h3; by rewrite !lookup_insert_ne).
  assert (h3 !! li = Some psi1) as H3i by apply lookup_insert_eq.
  assert (h3 !! l1 = Some []) as H3l.
  { unfold h3. rewrite lookup_insert_ne by done. apply lookup_insert_eq. }
  (* res.jsend.fail = ... *)
  erewrite run_attach; [|exact H3r|exact Hj|exact H3i].
  simpl heap; simpl funs; simpl trace.
  set (l2 := fresh_loc h3).
  assert (l2 ≠ lr) as H2 by (apply fresh_loc_ne; eauto).
  assert (l2 ≠ li) as H2' by (apply fresh_loc_ne; eauto).
  assert (l2 ≠ l1) as H21 by (apply fresh_loc_ne; eauto).
  set (psi2 := assoc_set (js "fail") (VObj KFunction l2) _).
  set (h4 := <[li := psi2]> _).
  assert (h4 !! lr = Some psr') as H4r
    by (unfold h4; by rewrite !lookup_insert_ne).
  assert (h4 !! li = Some psi2) as H4i by apply lookup_insert_eq.
  assert (h4 !! l1 = Some []) as H4l
    by (unfold h4; by rewrite !lookup_insert_ne).
  assert (h4 !! l2 = Some []) as H4l'.
  { unfold h4. rewrite lookup_insert_ne by done. apply lookup_insert_eq. }
  (* res.jsend.error = ... *)
  erewrite run_attach; [|exact H4r|exact Hj|exact H4i].
  simpl heap; simpl funs; simpl trace.
  set (l3 := fresh_loc h4).
  assert (l3 ≠ lr) as H3 by (apply fresh_loc_ne; eauto).
  assert (l3 ≠ li) as H3' by (apply fresh_loc_ne; eauto).
  assert (l3 ≠ l1) as H31 by (apply fresh_loc_ne; eauto).
  assert (l3 ≠ l2) as H32 by (apply fresh_loc_ne; eauto).
  set (psi3 := assoc_set (js "error") (VObj KFunction l3) _).
  set (h5 := <[li := psi3]> _).
  assert (h5 !! lr = Some psr') as H5r
    by (unfold h5; by rewrite !lookup_insert_ne).
  assert (h5 !! li = Some psi3) as H5i by apply lookup_insert_eq.
  (* next() *)
  unfold call_next. rewrite decide_True by done.
  eexists. split; [reflexivity|]. split; [done|].
  split.
  { intros k Hk. unfold field, own_props. simpl heap. rewrite H5r, Hlr. simpl.
    unfold psr'. rewrite assoc_set_other; [done|]. congruence. }
  assert (∀ args name l c,
    assoc (js name) psi3 = Some (VObj KFunction l) →
    <[l3:=CError (VObj kd lr) (errorLabel cfg)]>
      (<[l2:=CFail (VObj kd lr) (failLabel cfg)]>
         (<[l1:=CSuccess (VObj kd lr) (successLabel cfg)]> (funs w))) !! l = Some c →
    call_jsend (VObj kd lr) name args
      {| heap := h5;
         funs := <[l3:=CError (VObj kd lr) (errorLabel cfg)]>
                   (<[l2:=CFail (VObj kd lr) (failLabel cfg)]>
                      (<[l1:=CSuccess (VObj kd lr) (successLabel cfg)]> (funs w)));
         trace := trace w ++ [ENext] |} =
    Some (apply_closure c args
      {| heap := h5;
         funs := <[l3:=CError (VObj kd lr) (errorLabel cfg)]>
                   (<[l2:=CFail (VObj kd lr) (failLabel cfg)]>
                      (<[l1:=CSuccess (VObj kd lr) (successLabel cfg)]> (funs w)));
         trace := trace w ++ [ENext] |})) as Hcall.
  { intros args name l c Hname Hc. unfold call_jsend.
    rewrite run_get_prop. simpl heap.
    rewrite (field_lookup _ _ _ _ _ _ H5r Hj).
    unfold get_prop. simpl heap.
    rewrite (field_lookup _ _ _ _ _ _ H5i Hname).
    unfold call_function. simpl funs. by rewrite Hc. }
  split; [|split]; intros args; eapply Hcall.
  - unfold psi3, psi2, psi1.
    rewrite !assoc_set_other by (vm_compute; discriminate).
    apply assoc_set_same.
  - rewrite !lookup_insert_ne by done. apply lookup_insert_eq.
  - unfold psi3, psi2.
    rewrite !assoc_set_other by (vm_compute; discriminate).
    apply assoc_set_same.
  - rewrite lookup_insert_ne by done. apply lookup_insert_eq.
  - unfold psi3. apply assoc_set_same.
  - apply lookup_insert_eq.
Qed.

(** After the middleware has run, [res.jsend.success(data, status, ...)]
    sends the configured label, whatever further arguments the call has;
    likewise for [fail]. *)
Lemma attached_success_fail :
  ∃ w',
    middleware cfg req res next w = (Normal (), w')
    ∧ ∀ data status rest,
        data_rejected (default_param data VNull) = false →
        call_jsend res "success" (data :: status :: rest) w' =
          Some (Normal res,
                emitted w' (default_param status (num 200))
                  [(js "status", default_param (successLabel cfg) (str "success"));
                   (js "data", default_param data VNull)])
        ∧ call_jsend res "fail" (data :: status :: rest) w' =
          Some (Normal res,
                emitted w' (default_param status (num 400))
                  [(js "status", default_param (failLabel cfg) (str "fail"));
                   (js "data", default_param data VNull)]).
Proof.
  destruct middleware_attaches as (w' & Hrun & _ & Hkeep & Hs & Hf & _).
  exists w'. split; [done|]. intros data status rest Hd.
  assert (Jsend_new res w' = (Normal {| this_res := res |}, w')) as Hnew.
  { apply Jsend_new_accepts; [done| |]; rewrite Hkeep; try done;
      vm_compute; discriminate. }
  rewrite Hs, Hf. unfold apply_closure, bind. rewrite Hnew. simpl arg.
  by rewrite success_emits, fail_emits.
Qed.
End Middleware.

(** The labels [jsendMiddleware(config)] resolves: each is the
    configuration's own value unless that is [undefined], in which case it
    is the built-in name. *)
Lemma jsendMiddleware_labels (config : value) (w : world) :
  config ≠ VNull →
  ∃ w1,
    jsendMiddleware config w =
      (Normal {| successLabel := default_param (field (heap w) config "successLabel")
                                   (str "success");
                 failLabel := default_param (field (heap w) config "failLabel")
                                (str "fail");
                 errorLabel := default_param (field (heap w) config "errorLabel")
                                 (str "error") |}, w1)
    ∧ no_write w w1.
Proof.
  intros Hn. unfold jsendMiddleware.
  assert (config = VUndefined ∨ config ≠ VUndefined) as [->|Hu]
    by (destruct config; auto).
  - eexists. unfold default_object. rewrite run_alloc, !run_get_prop.
    unfold field, own_props. simpl heap. rewrite lookup_insert_eq.
    split; [reflexivity|].
    repeat split; simpl; try done. apply heap_subseteq_alloc.
  - exists w. split; [|apply no_write_refl].
    assert (default_object config = ret config) as -> by (by destruct config).
    unfold bind at 1. unfold ret at 1.
    unfold bind. by rewrite !get_prop_defined.
Qed.

(** ** Where the code departs from its documentation *)

(** C1. The label law holds for the status code, the data and the two
    defaults of the label, but not for the per-call override: the installed
    [success] and [fail] forward two arguments and the configured label.
    With [{successLabel: "ok"}] installed,
    [res.jsend.success({retryAfter: 60}, 201, "created")] sends
    [status: "ok"], and [res.jsend.fail(null, 422, "rejected")] sends
    [status: "fail"]; neither sends the label of the call. *)
Theorem installed_success_fail_drop_call_label :
  (∃ w' body,
     call_jsend Sample.res "success" [Sample.details; num 201; str "created"]
       (Sample.installed Sample.config) = Some (Normal Sample.res, w')
     ∧ trace w' = [ENext; EStatus (num 201); EJson body]
     ∧ unfold_value 2 (heap w') body =
         Node KPlain
           [(js "status", Leaf (str "ok"));
            (js "data", Node KPlain [(js "retryAfter", Leaf (num 60))])])
  ∧ (∃ w' body,
       call_jsend Sample.res "fail" [VNull; num 422; str "rejected"]
         (Sample.installed Sample.config) = Some (Normal Sample.res, w')
       ∧ trace w' = [ENext; EStatus (num 422); EJson body]
       ∧ unfold_value 2 (heap w') body =
           Node KPlain [(js "status", Leaf (str "fail")); (js "data", Leaf VNull)]).
Proof.
  split; eexists _, _; (split; [vm_compute; reflexivity|]);
    split; vm_compute; reflexivity.
Qed.

(** Called on the class itself, [success] does honour a label passed as its
    third argument. *)
Example class_success_honours_label :
  ∃ w' body,
    success {| this_res := Sample.res |} Sample.details (num 201) (str "created")
      Sample.w0 = (Normal Sample.res, w')
    ∧ trace w' = [EStatus (num 201); EJson body]
    ∧ unfold_value 2 (heap w') body =
        Node KPlain
          [(js "status", Leaf (str "created"));
           (js "data", Node KPlain [(js "retryAfter", Leaf (num 60))])].
Proof.
  eexists _, _. split; [vm_compute; reflexivity|].
  split; vm_compute; reflexivity.
Qed.

(** C2. Data that is neither null nor an object is not always rejected:
    for the falsy primitives [0], [-0], [NaN], [""] and [false] both
    [success] and [fail] complete and send the primitive as [data]. *)
Theorem falsy_primitive_data_is_sent
    (this : Jsend) (status statusLabel : value) (w : world) :
  Forall
    (fun data =>
       typeof data ≠ TObject
       ∧ success this data status statusLabel w =
           (Normal (this_res this),
            emitted w (default_param status (num 200))
              [(js "status", default_param statusLabel (str "success"));
               (js "data", data)])
       ∧ fail this data status statusLabel w =
           (Normal (this_res this),
            emitted w (default_param status (num 400))
              [(js "status", default_param statusLabel (str "fail"));
               (js "data", data)]))
    [num 0; VNum (S754_zero true); VNum S754_nan; str ""; VBool false].
Proof.
  repeat (apply Forall_cons; split;
          [split; [discriminate|];
           split; [by rewrite success_emits | by rewrite fail_emits]|]).
  apply Forall_nil_2.
Qed.

(** Truthy primitives and functions are rejected, with nothing written. *)
Lemma truthy_non_object_data_rejected
    (this : Jsend) (data status statusLabel : value) (w : world) :
  truthy data = true → typeof data ≠ TObject →
  success this data status statusLabel w = (Throw InvalidDataKind, w)
  ∧ fail this data status statusLabel w = (Throw InvalidDataKind, w).
Proof.
  intros Ht Hty.
  assert (data_rejected data = true) as Hr.
  { unfold data_rejected. rewrite Ht. simpl. by apply bool_decide_eq_true_2. }
  split; [by apply success_throws | by apply fail_throws].
Qed.

(** C6. The installed operations use the configured label, but a label
    passed in the call is not forwarded: each arrow function binds only the
    parameters before it, so a call with an explicit label is the same call
    without it.  On the README's [res.jsend.success(data, 201, "ok")] the
    envelope's status is "success", and
    [res.jsend.error("Oops", 500, {}, "failure")] sends "error". *)
Theorem installed_operations_ignore_label_argument
    (res label a b c l : value) (rest : list value) (w : world) :
  apply_closure (CSuccess res label) (a :: b :: l :: rest) w
    = apply_closure (CSuccess res label) [a; b] w
  ∧ apply_closure (CFail res label) (a :: b :: l :: rest) w
    = apply_closure (CFail res label) [a; b] w
  ∧ apply_closure (CError res label) (a :: b :: c :: l :: rest) w
    = apply_closure (CError res label) [a; b; c] w
  ∧ (∃ w' body,
       call_jsend Sample.res "success" [Sample.details; num 201; str "ok"]
         (Sample.installed VUndefined) = Some (Normal Sample.res, w')
       ∧ trace w' = [ENext; EStatus (num 201); EJson body]
       ∧ unfold_value 1 (heap w') body =
           Node KPlain [(js "status", Leaf (str "success"));
                        (js "data", Leaf Sample.details)])
  ∧ (∃ w' body,
       call_jsend Sample.res "error"
         [str "Oops"; num 500; VUndefined; str "failure"]
         (Sample.installed VUndefined) = Some (Normal Sample.res, w')
       ∧ trace w' = [ENext; EStatus (num 500); EJson body]
       ∧ unfold_value 1 (heap w') body =
           Node KPlain [(js "status", Leaf (str "error"));
                        (js "message", Leaf (str "Oops"))]).
Proof.
  split; [done|]. split; [done|]. split; [done|].
  split; eexists _, _; (split; [vm_compute; reflexivity|]);
    split; vm_compute; reflexivity.
Qed.

(** The configured label is the default of the installed operation:
    installing [{errorLabel: "exception"}]-style configurations changes the
    status sent by a call without a label. *)
Example installed_success_uses_configured_label :
  ∃ w' body,
    call_jsend Sample.res "success" [Sample.details]
      (Sample.installed Sample.config) = Some (Normal Sample.res, w')
    ∧ trace w' = [ENext; EStatus (num 200); EJson body]
    ∧ unfold_value 1 (heap w') body =
        Node KPlain [(js "status", Leaf (str "ok"));
                     (js "data", Leaf Sample.details)].
Proof.
  eexists _, _. split; [vm_compute; reflexivity|].
  split; vm_compute; reflexivity.
Qed.

(** The array [[1, 2]] sent by [success]: the envelope's [data] is the
    array object itself. *)
Example success_array_sample :
  ∃ w' body,
    success {| this_res := Sample.res |} Sample.array VUndefined VUndefined
      Sample.w0 = (Normal Sample.res, w')
    ∧ trace w' = [EStatus (num 200); EJson body]
    ∧ unfold_value 2 (heap w') body =
        Node KPlain
          [(js "status", Leaf (str "success"));
           (js "data", Node KArray [(js "0", Leaf (num 1)); (js "1", Leaf (num 2))])].
Proof.
  eexists _, _. split; [vm_compute; reflexivity|].
  split; vm_compute; reflexivity.
Qed.

(** * Further properties of the module *)

(** ** A [null] options argument *)

(** X4. The default [options = {}] stands in for a missing argument only:
    with a message that passes, [error(message, status, null)] throws a
    [TypeError] when it reads [options.extra], and nothing is written. *)
Theorem error_null_options_type_error
    (this : Jsend) (message status statusLabel : value) (w : world) :
  non_blank_string (default_param message (str "Internal Server Error")) →
  error this message status VNull statusLabel w = (Throw TypeError, w).
Proof.
  intros Hm. apply message_rejected_non_blank in Hm. by apply error_null_options.
Qed.

Lemma error_null_options_type_error_witness :
  error {| this_res := Sample.res |} (str "Oops") (num 500) VNull VUndefined Sample.w0
  = (Throw TypeError, Sample.w0).
Proof.
  apply (error_null_options_type_error {| this_res := Sample.res |} (str "Oops")
           (num 500) VUndefined Sample.w0).
  exists (js "Oops"). split; reflexivity.
Defined.

(** ** The middleware and what it installs *)

Lemma field_mono (h h' : gmap loc props) (v : value) (k k' : string) :
  h ⊆ h' → typeof (field h v k') = TFunction → field h' v k = field h v k.
Proof.
  intros Hsub Hf.
  destruct (field_function_inv _ _ _ Hf) as (kd & l & ps & -> & Hl).
  unfold field, own_props. by rewrite Hl, (lookup_weaken _ _ _ _ Hl Hsub).
Qed.

(** X5. On a response object that is absent or lacks a function [status] or
    [json], the middleware throws "Invalid Express response object
    provided." before anything else: nothing is attached and [next] is not
    called. *)
Theorem middleware_rejects_invalid_target
    (cfg : Labels) (req res next : value) (w : world) :
  truthy res = false
  ∨ typeof (field (heap w) res "status") ≠ TFunction
  ∨ typeof (field (heap w) res "json") ≠ TFunction →
  middleware cfg req res next w = (Throw InvalidResponseTarget, w).
Proof.
  intros Hbad. unfold middleware. unfold bind at 1.
  by rewrite Jsend_new_rejects.
Qed.

Lemma middleware_rejects_invalid_target_witness :
  middleware {| successLabel := str "success"; failLabel := str "fail";
                errorLabel := str "error" |}
    VNull Sample.details Sample.next Sample.w0
  = (Throw InvalidResponseTarget, Sample.w0).
Proof.
  apply (middleware_rejects_invalid_target _ VNull Sample.details Sample.next
           Sample.w0).
  right. left. vm_compute. discriminate.
Defined.



(** X7. After the middleware has run, a call [res.jsend.success(...args)] is
    the class's [success] on a new [Jsend] over the same response object,
    given the first two arguments and the configured label; likewise [fail];
    and [res.jsend.error(...args)] is the class's [error] given the first
    three arguments and the configured label.  An argument left out arrives
    as [undefined], so the class's own defaults apply. *)
Theorem installed_operations_are_class_methods
    (cfg : Labels) (req res next : value) (w : world) :
  truthy res = true →
  typeof (field (heap w) res "status") = TFunction →
  typeof (field (heap w) res "json") = TFunction →
  typeof next = TFunction →
  ∃ w',
    middleware cfg req res next w = (Normal (), w')
    ∧ ∀ args,
        call_jsend res "success" args w' =
          Some (success {| this_res := res |} (arg 0 args) (arg 1 args)
                  (successLabel cfg) w')
        ∧ call_jsend res "fail" args w' =
          Some (fail {| this_res := res |} (arg 0 args) (arg 1 args)
                  (failLabel cfg) w')
        ∧ call_jsend res "error" args w' =
          Some (error {| this_res := res |} (arg 0 args) (arg 1 args) (arg 2 args)
                  (errorLabel cfg) w').
Proof.
  intros Ht Hs Hj Hn.
  destruct (middleware_attaches cfg req res next w Ht Hs Hj Hn)
    as (w' & Hrun & _ & Hkeep & Hsu & Hfa & Her).
  exists w'. split; [done|]. intros args.
  assert (Jsend_new res w' = (Normal {| this_res := res |}, w')) as Hnew.
  { apply Jsend_new_accepts; [done| |]; rewrite Hkeep; try done;
      vm_compute; discriminate. }
  rewrite Hsu, Hfa, Her. unfold apply_closure, bind. by rewrite Hnew.
Qed.

Lemma installed_operations_are_class_methods_witness :
  ∃ w',
    middleware {| successLabel := str "ok"; failLabel := str "fail";
                  errorLabel := str "error" |}
      VNull Sample.res Sample.next Sample.w0 = (Normal (), w')
    ∧ ∀ args,
        call_jsend Sample.res "success" args w' =
          Some (success {| this_res := Sample.res |} (arg 0 args) (arg 1 args)
                  (str "ok") w')
        ∧ call_jsend Sample.res "fail" args w' =
          Some (fail {| this_res := Sample.res |} (arg 0 args) (arg 1 args)
                  (str "fail") w')
        ∧ call_jsend Sample.res "error" args w' =
          Some (error {| this_res := Sample.res |} (arg 0 args) (arg 1 args)
                  (arg 2 args) (str "error") w').
Proof.
  apply (installed_operations_are_class_methods
           {| successLabel := str "ok"; failLabel := str "fail";
              errorLabel := str "error" |}
           VNull Sample.res Sample.next Sample.w0); vm_compute; reflexivity.
Defined.

(** X8. Each installed operation builds its [Jsend] when it is called, so
    the response object is validated again at every call: if by then it has
    no function [status] or [json], the call throws "Invalid Express
    response object provided." and writes nothing, whatever its
    arguments. *)
Theorem installed_operations_revalidate_target
    (res label : value) (args : list value) (w : world) :
  truthy res = false
  ∨ typeof (field (heap w) res "status") ≠ TFunction
  ∨ typeof (field (heap w) res "json") ≠ TFunction →
  apply_closure (CSuccess res label) args w = (Throw InvalidResponseTarget, w)
  ∧ apply_closure (CFail res label) args w = (Throw InvalidResponseTarget, w)
  ∧ apply_closure (CError res label) args w = (Throw InvalidResponseTarget, w).
Proof.
  intros Hbad. unfold apply_closure, bind.
  by rewrite Jsend_new_rejects.
Qed.

(** The handler overwrites [res.json] after the middleware ran; the
    installed [success] then refuses the call. *)
Lemma installed_operations_revalidate_target_witness :
  apply_closure (CSuccess Sample.res (str "success")) [VNull]
    (set_prop Sample.res "json" VNull (Sample.installed VUndefined)).2
  = (Throw InvalidResponseTarget,
     (set_prop Sample.res "json" VNull (Sample.installed VUndefined)).2).
Proof.
  assert (typeof (field
            (heap (set_prop Sample.res "json" VNull (Sample.installed VUndefined)).2)
            Sample.res "json") ≠ TFunction) as Hjson
    by (vm_compute; discriminate).
  apply (installed_operations_revalidate_target Sample.res (str "success") [VNull]
           (set_prop Sample.res "json" VNull (Sample.installed VUndefined)).2).
  right. right. exact Hjson.
Defined.

(** X9. [jsendMiddleware(config)] resolves the three labels independently:
    each is the configuration's own property unless that is [undefined]
    (missing), in which case it is "success", "fail" or "error"; a missing
    configuration gives the three built-in names; resolving writes nothing.
    A [null] configuration cannot be destructured and throws a
    [TypeError]. *)
Theorem jsendMiddleware_resolves_labels (config : value) (w : world) :
  (config = VNull → jsendMiddleware config w = (Throw TypeError, w))
  ∧ (config = VUndefined →
     ∃ w1, jsendMiddleware config w =
             (Normal {| successLabel := str "success"; failLabel := str "fail";
                        errorLabel := str "error" |}, w1)
           ∧ no_write w w1)
  ∧ (config ≠ VNull →
     ∃ w1,
       jsendMiddleware config w =
         (Normal {| successLabel :=
                      default_param (field (heap w) config "successLabel")
                        (str "success");
                    failLabel :=
                      default_param (field (heap w) config "failLabel") (str "fail");
                    errorLabel :=
                      default_param (field (heap w) config "errorLabel")
                        (str "error") |}, w1)
       ∧ no_write w w1).
Proof.
  split; [|split].
  - by intros ->.
  - intros ->.
    destruct (jsendMiddleware_labels VUndefined w) as (w1 & Hr & Hn); [done|].
    eauto.
  - apply jsendMiddleware_labels.
Qed.

Lemma jsendMiddleware_resolves_labels_witness :
  jsendMiddleware VNull Sample.w0 = (Throw TypeError, Sample.w0)
  ∧ (∃ w1, jsendMiddleware VUndefined Sample.w0 =
             (Normal {| successLabel := str "success"; failLabel := str "fail";
                        errorLabel := str "error" |}, w1)
           ∧ no_write Sample.w0 w1)
  ∧ (∃ w1, jsendMiddleware Sample.config Sample.w0 =
             (Normal {| successLabel := str "ok"; failLabel := str "fail";
                        errorLabel := str "error" |}, w1)
           ∧ no_write Sample.w0 w1).
Proof.
  split; [|split].
  - apply (proj1 (jsendMiddleware_resolves_labels VNull Sample.w0)). reflexivity.
  - apply (proj1 (proj2 (jsendMiddleware_resolves_labels VUndefined Sample.w0))).
    reflexivity.
  - apply (proj2 (proj2 (jsendMiddleware_resolves_labels Sample.config Sample.w0))).
    discriminate.
Defined.

(** X10. From configuration to envelope: with [jsendMiddleware(config)]
    installed on a valid response object, [res.jsend.success(data)] sends
    status 200 and [{status: L, data}] where [L] is [config.successLabel] or
    "success" when that is missing; [res.jsend.fail(data)] sends 400 with
    [config.failLabel] or "fail"; and [res.jsend.error(message)] sends 500
    and [{status: L, message}] with [config.errorLabel] or "error". *)
Theorem configured_labels_reach_envelope
    (config req res next : value) (w : world) :
  config ≠ VNull →
  truthy res = true →
  typeof (field (heap w) res "status") = TFunction →
  typeof (field (heap w) res "json") = TFunction →
  typeof next = TFunction →
  ∃ cfg w0 w1,
    jsendMiddleware config w = (Normal cfg, w0)
    ∧ middleware cfg req res next w0 = (Normal (), w1)
    ∧ (∀ data,
         data_rejected (default_param data VNull) = false →
         call_jsend res "success" [data] w1 =
           Some (Normal res,
                 emitted w1 (num 200)
                   [(js "status",
                     default_param (field (heap w) config "successLabel")
                       (str "success"));
                    (js "data", default_param data VNull)])
         ∧ call_jsend res "fail" [data] w1 =
           Some (Normal res,
                 emitted w1 (num 400)
                   [(js "status",
                     default_param (field (heap w) config "failLabel") (str "fail"));
                    (js "data", default_param data VNull)]))
    ∧ (∀ message,
         non_blank_string message →
         ∃ w2,
           call_jsend res "error" [message] w1 =
             Some (Normal res,
                   emitted w2 (num 500)
                     [(js "status",
                       default_param (field (heap w) config "errorLabel")
                         (str "error"));
                      (js "message", message)])
           ∧ no_write w1 w2).
Proof.
  intros Hc Ht Hs Hj Hn.
  destruct (jsendMiddleware_labels config w Hc) as (w0 & Hcfg & _ & _ & Hsub).
  assert (typeof (field (heap w0) res "status") = TFunction) as Hs0
    by (by rewrite (field_mono _ _ _ _ "status" Hsub)).
  assert (typeof (field (heap w0) res "json") = TFunction) as Hj0
    by (by rewrite (field_mono _ _ _ _ "json" Hsub)).
  set (cfg := {| successLabel := _; failLabel := _; errorLabel := _ |}) in Hcfg.
  destruct (middleware_attaches cfg req res next w0 Ht Hs0 Hj0 Hn)
    as (w1 & Hrun & _ & Hkeep & Hsu & Hfa & Her).
  assert (Jsend_new res w1 = (Normal {| this_res := res |}, w1)) as Hnew.
  { apply Jsend_new_accepts; [done| |]; rewrite Hkeep; try done;
      vm_compute; discriminate. }
  exists cfg, w0, w1. split; [done|]. split; [done|]. split.
  - intros data Hd. rewrite Hsu, Hfa. unfold apply_closure, bind.
    rewrite Hnew. simpl arg.
    rewrite success_emits, fail_emits by done.
    unfold cfg. simpl successLabel. simpl failLabel.
    by rewrite !default_param_idem.
  - intros message (s & -> & Hb).
    rewrite Her. unfold apply_closure, bind. rewrite Hnew. simpl arg.
    rewrite error_without_options; [|done|].
    + eexists. split.
      * unfold cfg. simpl errorLabel. rewrite default_param_idem by done.
        reflexivity.
      * repeat split; simpl; try done. apply heap_subseteq_alloc.
    + apply message_rejected_non_blank. by exists s.
Qed.

(** With [{successLabel: "ok", errorLabel: "exception"}]. *)
Lemma configured_labels_reach_envelope_witness :
  let w := (set_prop Sample.config "errorLabel" (str "exception") Sample.w0).2 in
  ∃ cfg w0 w1,
    jsendMiddleware Sample.config w = (Normal cfg, w0)
    ∧ middleware cfg VNull Sample.res Sample.next w0 = (Normal (), w1)
    ∧ (∀ data,
         data_rejected (default_param data VNull) = false →
         call_jsend Sample.res "success" [data] w1 =
           Some (Normal Sample.res,
                 emitted w1 (num 200)
                   [(js "status", str "ok"); (js "data", default_param data VNull)])
         ∧ call_jsend Sample.res "fail" [data] w1 =
           Some (Normal Sample.res,
                 emitted w1 (num 400)
                   [(js "status", str "fail"); (js "data", default_param data VNull)]))
    ∧ (∀ message,
         non_blank_string message →
         ∃ w2,
           call_jsend Sample.res "error" [message] w1 =
             Some (Normal Sample.res,
                   emitted w2 (num 500)
                     [(js "status", str "exception"); (js "message", message)])
           ∧ no_write w1 w2).
Proof.
  apply (configured_labels_reach_envelope Sample.config VNull Sample.res Sample.next
           (set_prop Sample.config "errorLabel" (str "exception") Sample.w0).2).
  - discriminate.
  - reflexivity.
  - vm_compute. reflexivity.
  - vm_compute. reflexivity.
  - reflexivity.
Defined.

(** X11. Running the middleware a second time on the same response object
    (two [app.use] of it) replaces the operations: afterwards the three
    operations carry the labels of the second configuration, and [next] has
    been called once by each run. *)
Theorem second_install_replaces_first
    (cfgA cfgB : Labels) (req res next : value) (w : world) :
  truthy res = true →
  typeof (field (heap w) res "status") = TFunction →
  typeof (field (heap w) res "json") = TFunction →
  typeof next = TFunction →
  ∃ w1 w2,
    middleware cfgA req res next w = (Normal (), w1)
    ∧ middleware cfgB req res next w1 = (Normal (), w2)
    ∧ trace w2 = trace w ++ [ENext; ENext]
    ∧ ∀ args,
        call_jsend res "success" args w2 =
          Some (apply_closure (CSuccess res (successLabel cfgB)) args w2)
        ∧ call_jsend res "fail" args w2 =
          Some (apply_closure (CFail res (failLabel cfgB)) args w2)
        ∧ call_jsend res "error" args w2 =
          Some (apply_closure (CError res (errorLabel cfgB)) args w2).
Proof.
  intros Ht Hs Hj Hn.
  destruct (middleware_attaches cfgA req res next w Ht Hs Hj Hn)
    as (w1 & Hrun1 & Htr1 & Hkeep1 & _).
  assert (typeof (field (heap w1) res "status") = TFunction) as Hs1
    by (rewrite Hkeep1; [done | vm_compute; discriminate]).
  assert (typeof (field (heap w1) res "json") = TFunction) as Hj1
    by (rewrite Hkeep1; [done | vm_compute; discriminate]).
  destruct (middleware_attaches cfgB req res next w1 Ht Hs1 Hj1 Hn)
    as (w2 & Hrun2 & Htr2 & _ & Hsu & Hfa & Her).
  exists w1, w2. split; [done|]. split; [done|]. split.
  - rewrite Htr2, Htr1. by rewrite <- app_assoc.
  - intros args. by rewrite Hsu, Hfa, Her.
Qed.

Lemma second_install_replaces_first_witness :
  ∃ w1 w2,
    middleware {| successLabel := str "first"; failLabel := str "fail";
                  errorLabel := str "error" |}
      VNull Sample.res Sample.next Sample.w0 = (Normal (), w1)
    ∧ middleware {| successLabel := str "second"; failLabel := str "fail";
                    errorLabel := str "error" |}
        VNull Sample.res Sample.next w1 = (Normal (), w2)
    ∧ trace w2 = trace Sample.w0 ++ [ENext; ENext]
    ∧ ∀ args,
        call_jsend Sample.res "success" args w2 =
          Some (apply_closure (CSuccess Sample.res (str "second")) args w2)
        ∧ call_jsend Sample.res "fail" args w2 =
          Some (apply_closure (CFail Sample.res (str "fail")) args w2)
        ∧ call_jsend Sample.res "error" args w2 =
          Some (apply_closure (CError Sample.res (str "error")) args w2).
Proof.
  apply (second_install_replaces_first
           {| successLabel := str "first"; failLabel := str "fail";
              errorLabel := str "error" |}
           {| successLabel := str "second"; failLabel := str "fail";
              errorLabel := str "error" |}
           VNull Sample.res Sample.next Sample.w0); vm_compute; reflexivity.
Defined.

(** ** What the envelope shares with the caller *)

(** The envelope of an [error] call with options given, as an object of the
    store. *)
Lemma error_envelope_object
    (this : Jsend) (message status options statusLabel : value) (w : world) :
  options ≠ VUndefined → options ≠ VNull →
  message_rejected (default_param message (str "Internal Server Error")) = false →
  extra_rejected (field (heap w) options "extra") = false →
  ∃ w' le,
    error this message status options statusLabel w = (Normal (this_res this), w')
    ∧ last (trace w') = Some (EJson (VObj KPlain le))
    ∧ le = fresh_loc (heap (with_copy w (field (heap w) options "extra")))
    ∧ heap w' =
        <[le :=
            [(js "status", default_param statusLabel (str "error"));
             (js "message", default_param message (str "Internal Server Error"))]
            ++ optional "code" (field (heap w) options "code")
            ++ optional "details" (field (heap w) options "details")
            ++ (if truthy (field (heap w) options "extra")
                then [(js "extra", copy_of w (field (heap w) options "extra"))]
                else [])]>
          (heap (with_copy w (field (heap w) options "extra"))).
Proof.
  intros Hu Hn Hm Hx. rewrite error_with_options by done. rewrite Hx.
  eexists _, _. split; [reflexivity|]. unfold emitted. simpl.
  split; [|done].
  by rewrite last_app.
Qed.

(** X12. An array passed as [options.extra] passes the check, and what the
    envelope carries under [extra] is a new plain object holding the array's
    entries under their index keys, not an array. *)
Theorem error_array_extra_becomes_plain_object
    (this : Jsend) (message status options statusLabel : value) (w : world)
    (lc : loc) :
  non_blank_string (default_param message (str "Internal Server Error")) →
  field (heap w) options "extra" = VObj KArray lc →
  ∃ w' le lx envelope,
    error this message status options statusLabel w = (Normal (this_res this), w')
    ∧ last (trace w') = Some (EJson (VObj KPlain le))
    ∧ heap w' !! le = Some envelope
    ∧ assoc (js "extra") envelope = Some (VObj KPlain lx)
    ∧ heap w !! lx = None
    ∧ heap w' !! lx = Some (own_props (heap w) (VObj KArray lc)).
Proof.
  intros Hm Hx. apply message_rejected_non_blank in Hm.
  assert (options ≠ VUndefined ∧ options ≠ VNull) as [Hu Hn]
    by (split; intros ->; discriminate Hx).
  destruct (error_envelope_object this message status options statusLabel w Hu Hn Hm)
    as (w' & le & Hr & Hlast & Hle & Hheap); [by rewrite Hx|].
  rewrite Hx in Hle, Hheap. unfold with_copy, copy_of in Hle, Hheap.
  simpl truthy in Hle, Hheap. cbv iota in Hle, Hheap. simpl heap in Hle, Hheap.
  set (lx := fresh_loc (heap w)) in *.
  assert (le ≠ lx) as Hne.
  { rewrite Hle. apply fresh_loc_ne. rewrite lookup_insert_eq. eauto. }
  eexists w', le, lx, _. split; [done|]. split; [done|].
  split; [rewrite Hheap; apply lookup_insert_eq|].
  split.
  { rewrite !assoc_app, !assoc_optional_other by (vm_compute; discriminate).
    vm_compute. reflexivity. }
  split; [apply fresh_loc_unused|].
  rewrite Hheap. rewrite lookup_insert_ne by done. apply lookup_insert_eq.
Qed.

(** [extra: [1, 2]] on the sample request: the envelope's [extra] reads
    [{0: 1, 1: 2}]. *)
Lemma error_array_extra_becomes_plain_object_witness :
  let w := (set_prop Sample.options "extra" Sample.array Sample.w0).2 in
  ∃ w' le lx envelope,
    error {| this_res := Sample.res |} (str "Oops") VUndefined Sample.options
      VUndefined w = (Normal Sample.res, w')
    ∧ last (trace w') = Some (EJson (VObj KPlain le))
    ∧ heap w' !! le = Some envelope
    ∧ assoc (js "extra") envelope = Some (VObj KPlain lx)
    ∧ heap w !! lx = None
    ∧ heap w' !! lx = Some (own_props (heap w) (VObj KArray 10%positive)).
Proof.
  apply (error_array_extra_becomes_plain_object {| this_res := Sample.res |}
           (str "Oops") VUndefined Sample.options VUndefined
           (set_prop Sample.options "extra" Sample.array Sample.w0).2 10%positive).
  - exists (js "Oops"). split; reflexivity.
  - vm_compute. reflexivity.
Defined.

(** X13. Unlike [extra], the data of [success] and [fail] and the [details]
    of [error] are not copied: when they are objects, the envelope's [data]
    (resp. [details]) is the caller's object itself. *)
Theorem data_and_details_sent_by_reference
    (this : Jsend) (a status options statusLabel : value) (w : world)
    (k : obj_kind) (l : loc) :
  (a = VObj k l → k ≠ KFunction →
   ∃ le,
     heap w !! le = None
     ∧ success this a status statusLabel w =
         (Normal (this_res this),
          World (<[le := [(js "status", default_param statusLabel (str "success"));
                          (js "data", VObj k l)]]> (heap w))
                (funs w)
                (trace w ++ [EStatus (default_param status (num 200));
                             EJson (VObj KPlain le)]))
     ∧ fail this a status statusLabel w =
         (Normal (this_res this),
          World (<[le := [(js "status", default_param statusLabel (str "fail"));
                          (js "data", VObj k l)]]> (heap w))
                (funs w)
                (trace w ++ [EStatus (default_param status (num 400));
                             EJson (VObj KPlain le)])))
  ∧ (non_blank_string (default_param a (str "Internal Server Error")) →
     field (heap w) options "details" = VObj k l →
     extra_rejected (field (heap w) options "extra") = false →
     ∃ w' le envelope,
       error this a status options statusLabel w = (Normal (this_res this), w')
       ∧ last (trace w') = Some (EJson (VObj KPlain le))
       ∧ heap w' !! le = Some envelope
       ∧ assoc (js "details") envelope = Some (VObj k l)).
Proof.
  split.
  - intros -> Hk. exists (fresh_loc (heap w)).
    split; [apply fresh_loc_unused|].
    assert (data_rejected (default_param (VObj k l) VNull) = false) as Hd
      by (by destruct k).
    by rewrite success_emits, fail_emits.
  - intros Hm Hd Hx. apply message_rejected_non_blank in Hm.
    assert (options ≠ VUndefined ∧ options ≠ VNull) as [Hu Hn]
      by (split; intros ->; discriminate Hd).
    destruct (error_envelope_object this a status options statusLabel w Hu Hn Hm Hx)
      as (w' & le & Hr & Hlast & Hle & Hheap).
    rewrite Hd in Hheap.
    eexists w', le, _. split; [done|]. split; [done|].
    split; [rewrite Hheap; apply lookup_insert_eq|].
    rewrite !assoc_app, assoc_optional_other by (vm_compute; discriminate).
    unfold optional. simpl truthy. cbv iota.
    change (assoc (js "details") [(js "details", VObj k l)]) with (Some (VObj k l)).
    done.
Qed.

Lemma data_and_details_sent_by_reference_witness :
  (∃ le,
     heap Sample.w0 !! le = None
     ∧ success {| this_res := Sample.res |} Sample.details VUndefined VUndefined
         Sample.w0 =
         (Normal Sample.res,
          World (<[le := [(js "status", str "success");
                          (js "data", Sample.details)]]> (heap Sample.w0))
                (funs Sample.w0)
                (trace Sample.w0 ++ [EStatus (num 200); EJson (VObj KPlain le)]))
     ∧ fail {| this_res := Sample.res |} Sample.details VUndefined VUndefined
         Sample.w0 =
         (Normal Sample.res,
          World (<[le := [(js "status", str "fail");
                          (js "data", Sample.details)]]> (heap Sample.w0))
                (funs Sample.w0)
                (trace Sample.w0 ++ [EStatus (num 400); EJson (VObj KPlain le)])))
  ∧ (∃ w' le envelope,
       error {| this_res := Sample.res |} (str "DB down") (num 500) Sample.options
         VUndefined Sample.w0 = (Normal Sample.res, w')
       ∧ last (trace w') = Some (EJson (VObj KPlain le))
       ∧ heap w' !! le = Some envelope
       ∧ assoc (js "details") envelope = Some Sample.details).
Proof.
  split.
  - apply (proj1 (data_and_details_sent_by_reference {| this_res := Sample.res |}
                    Sample.details VUndefined VUndefined VUndefined Sample.w0
                    KPlain 5%positive)).
    + reflexivity.
    + discriminate.
  - apply (proj2 (data_and_details_sent_by_reference {| this_res := Sample.res |}
                    (str "DB down") (num 500) Sample.options VUndefined Sample.w0
                    KPlain 5%positive)).
    + exists (js "DB down"). split; reflexivity.
    + vm_compute. reflexivity.
    + vm_compute. reflexivity.
Defined.
